(** * SharePoint webhook receiver: intake pipeline and Service Bus publisher

    A shallow embedding of
      - [actualValidateTokenHandler] / [validateTokenHandler]
        (functions/httpTriggerWebhook.ts, the version that forwards
        notifications to Azure Service Bus), and
      - [AzureServiceBusService] (serviceBusService.ts),
    followed by the properties the specification states about them.

    Conventions of the embedding.
      - An [async] function is a computation in the monad [Task]: it
        produces the ordered list of observable events it caused and either
        the value its promise resolves to or the value it rejects with.
      - Calls into collaborators may fail: the awaited [request.json()],
        [request.text()], [sender.sendMessages], [sender.close],
        [sbClient.close] and an injected [sendMessages] may reject, and
        [new ServiceBusClient] and [createSender] may throw; what they do is
        an input of the model. [context.log], [query.get] and
        [JSON.stringify] on parsed JSON return.
      - The language's own run-time errors are modelled where the data can
        trigger them: iterating a value that is not iterable, reading a
        member of [null], and converting to a string, inside a template
        literal, an object that [JSON.parse] gave an own [toString] member,
        each throw a [TypeError].
      - A string is the sequence of bytes of its UTF-8 encoding.
      - A log call is recorded with its level and the values interpolated
        into its message; rendering them to text is left to the logging
        infrastructure. *)

From Stdlib Require Import String Ascii List ZArith Bool Lia.
From Stdlib Require Import Floats.SpecFloat.
Import ListNotations.
Local Open Scope string_scope.
Local Open Scope list_scope.

(** ** JavaScript values produced by [JSON.parse] *)

#[local] Set Warnings "-register-all".

Inductive JValue : Type :=
| JNull
| JBool (b : bool)
| JNum (x : spec_float)
| JStr (s : string)
| JArr (items : list JValue)
| JObj (fields : list (string * JValue)).

(** A thrown value: an [Error] instance with its [message], or anything else,
    kept as what [String(e)] yields. *)
Inductive JsThrown : Type :=
| ErrorObject (message : string)
| OtherThrown (shown : string).

(** [e instanceof Error ? e.message : String(e)] *)
Definition error_text (e : JsThrown) : string :=
  match e with
  | ErrorObject message => message
  | OtherThrown shown => shown
  end.

Definition TypeError (message : string) : JsThrown := ErrorObject message.

(** Truthiness of a string: only the empty string is falsy. *)
Definition nonempty (s : string) : bool :=
  match s with
  | EmptyString => false
  | String _ _ => true
  end.

(** Truthiness of a [string | null | undefined]. *)
Definition truthy_string (o : option string) : option string :=
  match o with
  | Some s => if nonempty s then Some s else None
  | None => None
  end.

(** Truthiness of a parsed JSON value: [null], [false], zero, [NaN] and the
    empty string are falsy; objects and arrays are always truthy. *)
Definition js_truthy (v : JValue) : bool :=
  match v with
  | JNull => false
  | JBool b => b
  | JNum (S754_zero _) => false
  | JNum S754_nan => false
  | JNum _ => true
  | JStr s => nonempty s
  | JArr _ => true
  | JObj _ => true
  end.

(** Truthiness of a member that may be [undefined]. *)
Definition js_truthy_opt (o : option JValue) : bool :=
  match o with
  | Some v => js_truthy v
  | None => false
  end.

(** Own property of a parsed object, first binding of the name. *)
Fixpoint lookup_field (fields : list (string * JValue)) (name : string) : option JValue :=
  match fields with
  | [] => None
  | (k, v) :: rest => if String.eqb k name then Some v else lookup_field rest name
  end.

(** ** Outcomes and the [Task] monad *)

Inductive Outcome (A : Type) : Type :=
| Returned (a : A)
| Thrown (e : JsThrown).
Arguments Returned {A} a.
Arguments Thrown {A} e.

(** [v.name] for the member names the handler reads ([value],
    [subscriptionId], [resource], [siteUrl], [changeType]), none of which is
    defined on a built-in prototype: [undefined] ([None]) on primitives and
    arrays, a [TypeError] on [null]. *)
Definition get_member (v : JValue) (name : string) : Outcome (option JValue) :=
  match v with
  | JNull =>
      Thrown (TypeError ("Cannot read properties of null (reading '" ++ name ++ "')"))
  | JObj fields => Returned (lookup_field fields name)
  | _ => Returned None
  end.

(** Whether [ToString(v)] returns. Primitives always convert. An object
    converts through [Object.prototype.toString] unless the parsed JSON gave
    it an own member named [toString]: that member is no function, and
    [valueOf] yields no primitive either, so the conversion throws. An array
    converts through [join], which converts every element that is not
    [null]. *)
Fixpoint renders (v : JValue) : bool :=
  match v with
  | JArr items =>
      forallb (fun item => match item with
                           | JNull => true
                           | _ => renders item
                           end) items
  | JObj fields =>
      match lookup_field fields "toString" with
      | Some _ => false
      | None => true
      end
  | _ => true
  end.

Definition conversion_error : JsThrown :=
  TypeError "Cannot convert object to primitive value".

(** A substitution [${v}] of a template literal: [ToString] of a value that
    may be [undefined]. Only whether it returns is kept. *)
Definition interpolate (v : option JValue) : Outcome unit :=
  match v with
  | None => Returned tt
  | Some value => if renders value then Returned tt else Thrown conversion_error
  end.

(** The number of bytes of the UTF-8 sequence that starts with [lead]. *)
Definition utf8_sequence_length (lead : ascii) : nat :=
  let n := nat_of_ascii lead in
  if (n <? 192)%nat then 1%nat
  else if (n <? 224)%nat then 2%nat
  else if (n <? 240)%nat then 3%nat
  else 4%nat.

(** The code points of a string, each as the string of its own bytes:
    [current] is the sequence being read and [more] the number of bytes it
    still lacks. *)
Fixpoint code_points_from (s current : string) (more : nat) : list string :=
  match s with
  | EmptyString =>
      match current with
      | EmptyString => []
      | _ => [current]
      end
  | String c rest =>
      match more with
      | O =>
          match current with
          | EmptyString =>
              code_points_from rest (String c EmptyString) (utf8_sequence_length c - 1)
          | _ =>
              current
              :: code_points_from rest (String c EmptyString) (utf8_sequence_length c - 1)
          end
      | S k => code_points_from rest (current ++ String c EmptyString) k
      end
  end.

Definition code_points (s : string) : list string :=
  code_points_from s EmptyString 0.

(** The iteration protocol of [for (const x of v)]: arrays yield their
    elements, strings their code points one by one, anything else (including
    [undefined]) is not iterable. *)
Definition js_iterate (what : string) (v : option JValue) : Outcome (list JValue) :=
  match v with
  | Some (JArr items) => Returned items
  | Some (JStr s) => Returned (map JStr (code_points s))
  | _ => Thrown (TypeError (what ++ " is not iterable"))
  end.

(** ** Messages, log lines and observable events *)

(** The object literal [{ body: notification, contentType: ... }]. *)
Record ServiceBusMessage : Type := {
  body : JValue;
  contentType : string
}.

Inductive Level : Type := LogInfo | LogWarn | LogError.

(** One constructor per logging statement of the two source files, carrying
    the interpolated values. *)
Inductive LogLine : Type :=
| MsgProcessedRequest (url method : string)
| MsgValidationPost (token : string)
| MsgJsonParseError (text : string)
| MsgRawPayload (raw : string)
| MsgRawPayloadUnreadable (textError : JsThrown)
| MsgPayloadEmptyOrMalformed
| MsgPayloadStructure (payload : JValue)
| MsgReceivedNotifications (payload : JValue)
| MsgProcessingNotification (subscriptionId resource siteUrl : option JValue)
| MsgChangeTypeFound (changeType : option JValue)
| MsgChangeTypeMissing (notification : JValue)
| MsgEnvNotSet
| MsgValidationGet (token : string)
| MsgGetWithoutToken
| MsgUnsupportedMethod (method : string)
| MsgHandlerError (errorMessage : string)
| MsgAttemptingSend (count : nat) (queueName : string)
| MsgSent (count : nat) (queueName : string)
| MsgSendFailed (queueName : string) (sbErrorMessage : string)
| MsgClosed
| MsgCloseError (text : string).

Inductive Event : Type :=
| Logged (lvl : Level) (line : LogLine)
| BodyReadJson                                   (* request.json() called *)
| BodyReadText                                   (* request.text() called *)
| PublishInvoked (messages : list ServiceBusMessage)  (* sbService.sendMessages(...) *)
| ClientCreated (connectionString : string)      (* new ServiceBusClient(...) *)
| SenderCreated (queueName : string)             (* sbClient.createSender(...) *)
| SenderSend (messages : list ServiceBusMessage) (* sender.sendMessages(...) *)
| SenderClose                                    (* sender.close() *)
| ClientClose.                                   (* sbClient.close() *)

Module TaskMonad.

Definition Task (A : Type) : Type := (list Event * Outcome A)%type.

Definition ret {A} (a : A) : Task A := ([], Returned a).

Definition throw {A} (e : JsThrown) : Task A := ([], Thrown e).

Definition emit (ev : Event) : Task unit := ([ev], Returned tt).

Definition lift {A} (o : Outcome A) : Task A := ([], o).

Definition bind {A B} (m : Task A) (k : A -> Task B) : Task B :=
  match m with
  | (t1, Returned a) => let (t2, r) := k a in (t1 ++ t2, r)
  | (t1, Thrown e) => (t1, Thrown e)
  end.

(** [try { m } catch (e) { handler e }] *)
Definition try_catch {A} (m : Task A) (handler : JsThrown -> Task A) : Task A :=
  match m with
  | (t1, Returned a) => (t1, Returned a)
  | (t1, Thrown e) => let (t2, r) := handler e in (t1 ++ t2, r)
  end.

(** [try { m } finally { cleanup }]: the cleanup always runs; if it throws,
    its exception replaces the outcome of [m]. *)
Definition try_finally {A} (m : Task A) (cleanup : Task unit) : Task A :=
  let (t1, r1) := m in
  match cleanup with
  | (t2, Returned _) => (t1 ++ t2, r1)
  | (t2, Thrown e) => (t1 ++ t2, Thrown e)
  end.

Definition events {A} (m : Task A) : list Event := fst m.
Definition outcome {A} (m : Task A) : Outcome A := snd m.

End TaskMonad.
Import TaskMonad.

Declare Scope task_scope.
Delimit Scope task_scope with task.
Notation "x <- m ;; k" := (bind m (fun x => k))
  (at level 61, m at next level, right associativity) : task_scope.
Notation "m ;; k" := (bind m (fun _ => k))
  (at level 61, right associativity) : task_scope.
Local Open Scope task_scope.

(** [context.log], [context.warn], [context.error] *)
Definition context_log (line : LogLine) : Task unit := emit (Logged LogInfo line).
Definition context_warn (line : LogLine) : Task unit := emit (Logged LogWarn line).
Definition context_error (line : LogLine) : Task unit := emit (Logged LogError line).

(** ** The Queue Publisher: serviceBusService.ts *)

(** [interface IServiceBusService]: an object with one method. The
    [InvocationContext] argument is the log, which is part of [Task]. *)
Record IServiceBusService : Type := {
  sendMessages : list ServiceBusMessage -> Task unit
}.

(** What the Service Bus SDK does on the calls of one publish: the behaviour
    of the external transport, an input of the model. [new_client_result] is
    what [new ServiceBusClient(connectionString)] does with a connection
    string, [create_sender_result] what [createSender(queueName)] does with a
    queue name; the other three are the awaited calls. *)
Record ServiceBusSdk : Type := {
  new_client_result : string -> Outcome unit;
  create_sender_result : string -> Outcome unit;
  send_result : list ServiceBusMessage -> Outcome unit;
  sender_close_result : Outcome unit;
  client_close_result : Outcome unit
}.

Module AzureServiceBusService.

(** The private fields of the class. *)
Record t : Type := {
  connectionString : string;
  queueName : string
}.

(** [constructor(connectionString, queueName)]. The arguments are typed
    [string], but nothing checks that at run time: [None] is an absent
    ([undefined]) argument. *)
Definition constructor (connectionString queueName : option string) : Outcome t :=
  match truthy_string connectionString with
  | None => Thrown (ErrorObject "Service Bus connection string is required.")
  | Some cs =>
      match truthy_string queueName with
      | None => Thrown (ErrorObject "Service Bus queue name is required.")
      | Some q => Returned {| connectionString := cs; queueName := q |}
      end
  end.

Section Methods.
Variable sdk : ServiceBusSdk.

(** [new ServiceBusClient(connectionString)] *)
Definition new_ServiceBusClient (connectionString : string) : Task unit :=
  emit (ClientCreated connectionString) ;; lift (new_client_result sdk connectionString).

(** [sbClient.createSender(queueName)] *)
Definition sbClient_createSender (queueName : string) : Task unit :=
  emit (SenderCreated queueName) ;; lift (create_sender_result sdk queueName).

Definition sender_sendMessages (messages : list ServiceBusMessage) : Task unit :=
  emit (SenderSend messages) ;; lift (send_result sdk messages).

Definition sender_close : Task unit :=
  emit SenderClose ;; lift (sender_close_result sdk).

Definition sbClient_close : Task unit :=
  emit ClientClose ;; lift (client_close_result sdk).

(** The [try] block of [sendMessages]. *)
Definition send_block (this : t) (messages : list ServiceBusMessage) : Task unit :=
  context_log (MsgAttemptingSend (length messages) (queueName this)) ;;
  sender_sendMessages messages ;;
  context_log (MsgSent (length messages) (queueName this)).

(** The [catch (sbError)] block: log, then re-throw. *)
Definition send_catch (this : t) (sbError : JsThrown) : Task unit :=
  context_error (MsgSendFailed (queueName this) (error_text sbError)) ;;
  throw sbError.

(** The [finally] block, with its own [try]/[catch (closeError)]. *)
Definition release_block : Task unit :=
  try_catch
    (sender_close ;;
     sbClient_close ;;
     context_log MsgClosed)
    (fun closeError => context_error (MsgCloseError (error_text closeError))).

(** [async sendMessages(messages, context)]: the client and the sender are
    made before the [try], so a throw of either leaves the function at once,
    past the [catch] and the [finally]. *)
Definition sendMessages_impl (this : t) (messages : list ServiceBusMessage) : Task unit :=
  new_ServiceBusClient (connectionString this) ;;
  sbClient_createSender (queueName this) ;;
  try_finally
    (try_catch (send_block this messages) (send_catch this))
    release_block.

(** [class AzureServiceBusService implements IServiceBusService] *)
Definition as_service (this : t) : IServiceBusService :=
  {| sendMessages := sendMessages_impl this |}.

End Methods.

End AzureServiceBusService.

(** ** The webhook handler: functions/httpTriggerWebhook.ts *)

(** The parts of [HttpRequest] the handler touches. [query] is the
    [URLSearchParams] as its list of pairs; [json] and [text] are what the
    body accessors resolve to or reject with when the handler awaits them. *)
Record HttpRequest : Type := {
  url : string;
  method : string;
  query : list (string * string);
  json : Outcome JValue;
  text : Outcome string
}.

(** [HttpResponseInit]; an absent [headers] is the empty list. *)
Record HttpResponseInit : Type := {
  status : Z;
  headers : list (string * string);
  response_body : string
}.

(** [process.env], the two variables the handler reads. *)
Record ProcessEnv : Type := {
  SERVICE_BUS_CONNECTION_STRING : option string;
  SERVICE_BUS_QUEUE_NAME : option string
}.

(** [URLSearchParams.get]: the value of the first pair with that name. *)
Fixpoint query_get (q : list (string * string)) (name : string) : option string :=
  match q with
  | [] => None
  | (k, v) :: rest => if String.eqb k name then Some v else query_get rest name
  end.

Definition request_json (request : HttpRequest) : Task JValue :=
  emit BodyReadJson ;; lift (json request).

Definition request_text (request : HttpRequest) : Task string :=
  emit BodyReadText ;; lift (text request).

Definition text_plain : list (string * string) := [("Content-Type", "text/plain")].

Definition validation_echo (token : string) : HttpResponseInit :=
  {| status := 200; headers := text_plain; response_body := token |}.

Definition invalid_json_response : HttpResponseInit :=
  {| status := 400; headers := [];
     response_body := "Invalid JSON payload for notification." |}.

Definition malformed_response : HttpResponseInit :=
  {| status := 400; headers := [];
     response_body := "Notification payload is empty or malformed." |}.

Definition acknowledged_response : HttpResponseInit :=
  {| status := 202; headers := [];
     response_body := "Notification acknowledged and queued for processing." |}.

Definition get_without_token_response : HttpResponseInit :=
  {| status := 405; headers := [];
     response_body := "SharePoint webhooks use POST. Validation: POST with 'validationtoken' in query. Notifications: POST with payload in body." |}.

Definition method_not_allowed_response (m : string) : HttpResponseInit :=
  {| status := 405; headers := [];
     response_body := "Method " ++ m ++ " not allowed or not handled." |}.

Definition internal_error_response : HttpResponseInit :=
  {| status := 500; headers := [];
     response_body := "An internal error occurred while processing the request." |}.

(** The element pushed on [messagesToSend]. *)
Definition to_message (notification : JValue) : ServiceBusMessage :=
  {| body := notification; contentType := "application/json" |}.

(** The body of the [for (const notification of parsedPayload.value)] loop,
    run over the remaining elements; [messagesToSend] is the array built so
    far. The two template literals convert the members they interpolate to
    strings, one after the other, before anything is logged. *)
Fixpoint build_messages (notifications : list JValue)
    (messagesToSend : list ServiceBusMessage) : Task (list ServiceBusMessage) :=
  match notifications with
  | [] => ret messagesToSend
  | notification :: rest =>
      subscriptionId <- lift (get_member notification "subscriptionId") ;;
      lift (interpolate subscriptionId) ;;
      resource <- lift (get_member notification "resource") ;;
      lift (interpolate resource) ;;
      siteUrl <- lift (get_member notification "siteUrl") ;;
      lift (interpolate siteUrl) ;;
      context_log (MsgProcessingNotification subscriptionId resource siteUrl) ;;
      changeType <- lift (get_member notification "changeType") ;;
      (if js_truthy_opt changeType
       then lift (interpolate changeType) ;;
            context_log (MsgChangeTypeFound changeType)
       else context_warn (MsgChangeTypeMissing notification)) ;;
      build_messages rest (messagesToSend ++ [to_message notification])
  end.

(** [await sbService.sendMessages(messagesToSend, context)], with the call
    itself recorded. *)
Definition invoke_sendMessages (sbService : IServiceBusService)
    (messagesToSend : list ServiceBusMessage) : Task unit :=
  emit (PublishInvoked messagesToSend) ;;
  sendMessages sbService messagesToSend.

Section Handler.
Variable env : ProcessEnv.
Variable sdk : ServiceBusSdk.

(** The [if (connectionString && queueName) ... else ...] statement. *)
Definition forward_to_service_bus (parsedPayload : JValue)
    (serviceBusServiceOverride : option IServiceBusService) : Task unit :=
  match truthy_string (SERVICE_BUS_CONNECTION_STRING env),
        truthy_string (SERVICE_BUS_QUEUE_NAME env) with
  | Some connectionString, Some queueName =>
      sbService <-
        match serviceBusServiceOverride with
        | Some override => ret override
        | None =>
            this <- lift (AzureServiceBusService.constructor
                            (Some connectionString) (Some queueName)) ;;
            ret (AzureServiceBusService.as_service sdk this)
        end ;;
      value <- lift (get_member parsedPayload "value") ;;
      notifications <- lift (js_iterate "parsedPayload.value" value) ;;
      messagesToSend <- build_messages notifications [] ;;
      if (0 <? length messagesToSend)%nat
      then try_catch (invoke_sendMessages sbService messagesToSend)
                     (fun sbError => ret tt)
      else ret tt
  | _, _ => context_warn MsgEnvNotSet
  end.

(** The notification branch of a POST: lines 63 to 139 of the handler. *)
Definition intake (request : HttpRequest)
    (serviceBusServiceOverride : option IServiceBusService) : Task HttpResponseInit :=
  parsed <-
    try_catch
      (parsedPayload <- request_json request ;; ret (inl parsedPayload))
      (fun e =>
         context_error (MsgJsonParseError (error_text e)) ;;
         try_catch
           (rawPayloadForError <- request_text request ;;
            context_log (MsgRawPayload rawPayloadForError))
           (fun textError => context_error (MsgRawPayloadUnreadable textError)) ;;
         ret (inr invalid_json_response)) ;;
  match parsed with
  | inr response => ret response
  | inl parsedPayload =>
      if negb (js_truthy parsedPayload)
      then
        context_log MsgPayloadEmptyOrMalformed ;;
        (if js_truthy parsedPayload
         then context_log (MsgPayloadStructure parsedPayload)
         else ret tt) ;;
        ret malformed_response
      else
        context_log (MsgReceivedNotifications parsedPayload) ;;
        forward_to_service_bus parsedPayload serviceBusServiceOverride ;;
        ret acknowledged_response
  end.

(** [export async function actualValidateTokenHandler(request, context,
    serviceBusServiceOverride?)] *)
Definition actualValidateTokenHandler (request : HttpRequest)
    (serviceBusServiceOverride : option IServiceBusService) : Task HttpResponseInit :=
  context_log (MsgProcessedRequest (url request) (method request)) ;;
  try_catch
    (if String.eqb (method request) "POST" then
       match truthy_string (query_get (query request) "validationtoken") with
       | Some validationTokenFromQuery =>
           context_log (MsgValidationPost validationTokenFromQuery) ;;
           ret (validation_echo validationTokenFromQuery)
       | None => intake request serviceBusServiceOverride
       end
     else if String.eqb (method request) "GET" then
       match truthy_string (query_get (query request) "validationtoken") with
       | Some validationTokenFromQueryForGET =>
           context_log (MsgValidationGet validationTokenFromQueryForGET) ;;
           ret (validation_echo validationTokenFromQueryForGET)
       | None =>
           context_log MsgGetWithoutToken ;;
           ret get_without_token_response
       end
     else
       context_log (MsgUnsupportedMethod (method request)) ;;
       ret (method_not_allowed_response (method request)))
    (fun error =>
       context_error (MsgHandlerError (error_text error)) ;;
       ret internal_error_response).

(** [export async function validateTokenHandler(request, context)]: the
    registered entry point, without an injected service. *)
Definition validateTokenHandler (request : HttpRequest) : Task HttpResponseInit :=
  actualValidateTokenHandler request None.

End Handler.

(** ** Vocabulary of the specification *)

(** A notification is a JSON object. *)
Definition is_object (v : JValue) : bool :=
  match v with
  | JObj _ => true
  | _ => false
  end.

(** The batch a decoded body stands for: an object whose top-level [value]
    is an array of notification objects. *)
Definition notification_batch (payload : JValue) : option (list JValue) :=
  match payload with
  | JObj fields =>
      match lookup_field fields "value" with
      | Some (JArr notifications) =>
          if forallb is_object notifications then Some notifications else None
      | _ => None
      end
  | _ => None
  end.

(** The decoded value has a top-level [value] collection. *)
Definition has_value_collection (payload : JValue) : bool :=
  match payload with
  | JObj fields =>
      match lookup_field fields "value" with
      | Some (JArr _) => true
      | _ => false
      end
  | _ => false
  end.

(** The request carries no usable validation token. *)
Definition no_validation_token (request : HttpRequest) : Prop :=
  truthy_string (query_get (query request) "validationtoken") = None.

(** A destination coordinate that is absent ([undefined]) or empty. *)
Definition absent_or_empty (o : option string) : bool :=
  match o with
  | None => true
  | Some s => negb (nonempty s)
  end.

(** Events that reach the Queue Publisher or the transport behind it. *)
Definition touches_service_bus (ev : Event) : bool :=
  match ev with
  | Logged _ _ | BodyReadJson | BodyReadText => false
  | PublishInvoked _ | ClientCreated _ | SenderCreated _
  | SenderSend _ | SenderClose | ClientClose => true
  end.

(** Events that read the request body. *)
Definition reads_body (ev : Event) : bool :=
  match ev with
  | BodyReadJson | BodyReadText => true
  | _ => false
  end.

(** The service the handler ends up calling: [serviceBusServiceOverride ||
    new AzureServiceBusService(connectionString, queueName)]. *)
Definition service_in_use (sdk : ServiceBusSdk) (override : option IServiceBusService)
    (connectionString queueName : string) : IServiceBusService :=
  match override with
  | Some o => o
  | None =>
      AzureServiceBusService.as_service sdk
        {| AzureServiceBusService.connectionString := connectionString;
           AzureServiceBusService.queueName := queueName |}
  end.

(** ** The liveness probe: [httpTriggerWebhook] *)

Module Probe.

(** What a run of the probe can be seen to do: its one log line, with the
    URL interpolated into it, and the call of [request.text()]. *)
Inductive ProbeEvent : Type :=
| ProbeLogged (url : string)
| ProbeBodyReadText.

(** The object literal [{ body: ... }]: neither [status] nor [headers] is
    set, both are left to the platform. *)
Record ProbeResponse : Type := {
  probe_body : string
}.

(** The template literal of the response body. *)
Definition greeting (name : string) : string := "Hello, " ++ name ++ "!".

(** [export async function httpTriggerWebhook(request, context)]:
    [request.query.get('name') || await request.text() || 'world']
    evaluates [request.text()] only when the query gives no usable name, and
    nothing catches its rejection. *)
Definition httpTriggerWebhook (request : HttpRequest)
    : list ProbeEvent * Outcome ProbeResponse :=
  match truthy_string (query_get (query request) "name") with
  | Some name =>
      ([ProbeLogged (url request)], Returned {| probe_body := greeting name |})
  | None =>
      match text request with
      | Returned bodyText =>
          ([ProbeLogged (url request); ProbeBodyReadText],
           Returned {| probe_body :=
                         greeting (if nonempty bodyText then bodyText else "world") |})
      | Thrown e => ([ProbeLogged (url request); ProbeBodyReadText], Thrown e)
      end
  end.

End Probe.

(** ** Further vocabulary *)

Definition is_log (ev : Event) : bool :=
  match ev with
  | Logged _ _ => true
  | _ => false
  end.

Definition is_error_log (ev : Event) : bool :=
  match ev with
  | Logged LogError _ => true
  | _ => false
  end.

Definition is_send (ev : Event) : bool :=
  match ev with
  | SenderSend _ => true
  | _ => false
  end.

Definition is_null (v : JValue) : bool :=
  match v with
  | JNull => true
  | _ => false
  end.

(** [parsedPayload.value] of a decoded body that is not [null]. *)
Definition value_member (payload : JValue) : option JValue :=
  match payload with
  | JObj fields => lookup_field fields "value"
  | _ => None
  end.

(** What [for ... of] accepts: an array or a string. *)
Definition iterable (v : option JValue) : bool :=
  match v with
  | Some (JArr _) | Some (JStr _) => true
  | _ => false
  end.

(** [notification.changeType] of a notification object. *)
Definition changeType_of (notification : JValue) : option JValue :=
  match notification with
  | JObj fields => lookup_field fields "changeType"
  | _ => None
  end.

(** The responses the token endpoint can give that are not an echo. *)
Definition fixed_responses (m : string) : list HttpResponseInit :=
  [acknowledged_response; invalid_json_response; malformed_response;
   get_without_token_response; method_not_allowed_response m;
   internal_error_response].

(** What iterating a value yields, when it can be iterated: the elements of
    an array, the code points of a string. *)
Definition elements (v : option JValue) : option (list JValue) :=
  match v with
  | Some (JArr items) => Some items
  | Some (JStr s) => Some (map JStr (code_points s))
  | _ => None
  end.

(** [v.name] of a value that is not [null]. *)
Definition member_of (v : JValue) (name : string) : option JValue :=
  match v with
  | JObj fields => lookup_field fields name
  | _ => None
  end.

Definition renders_opt (v : option JValue) : bool :=
  match v with
  | Some value => renders value
  | None => true
  end.

(** An element the loop gets past: it is not [null], and the four members
    the log lines interpolate convert to strings. *)
Definition loggable (notification : JValue) : bool :=
  negb (is_null notification)
  && renders_opt (member_of notification "subscriptionId")
  && renders_opt (member_of notification "resource")
  && renders_opt (member_of notification "siteUrl")
  && renders_opt (member_of notification "changeType").

(** A JSON value that is neither an object nor an array. *)
Definition is_primitive (v : JValue) : bool :=
  match v with
  | JArr _ | JObj _ => false
  | _ => true
  end.

(** A flat JSON object, the shape of a notification: every member is a
    primitive. *)
Definition is_flat_object (v : JValue) : bool :=
  match v with
  | JObj fields => forallb (fun field => is_primitive (snd field)) fields
  | _ => false
  end.

(** A decoded body the loop gets through: its [value] can be iterated and
    the loop gets past every element. *)
Definition forwardable (payload : JValue) : bool :=
  match elements (value_member payload) with
  | Some notifications => forallb loggable notifications
  | None => false
  end.

(** Both destination coordinates are present and non-empty. *)
Definition coordinates_set (env : ProcessEnv) : bool :=
  negb (absent_or_empty (SERVICE_BUS_CONNECTION_STRING env))
  && negb (absent_or_empty (SERVICE_BUS_QUEUE_NAME env)).

(** The two run-time errors the data can cause. *)
Definition not_iterable_error : JsThrown :=
  TypeError "parsedPayload.value is not iterable".

Definition null_member_error : JsThrown :=
  TypeError "Cannot read properties of null (reading 'subscriptionId')".

(** The first three events of every notification run that got past the
    guards: the request line, the JSON read, the payload dump. *)
Definition intake_prefix (request : HttpRequest) (payload : JValue) : list Event :=
  [Logged LogInfo (MsgProcessedRequest (url request) (method request));
   BodyReadJson;
   Logged LogInfo (MsgReceivedNotifications payload)].

(** The paths through [actualValidateTokenHandler], each with the run it
    produces. *)
Inductive HandlerRun (env : ProcessEnv) (sdk : ServiceBusSdk) (request : HttpRequest)
    (override : option IServiceBusService) : Task HttpResponseInit -> Prop :=
| RunEchoPost (V : string) :
    method request = "POST" ->
    truthy_string (query_get (query request) "validationtoken") = Some V ->
    HandlerRun env sdk request override
      ([Logged LogInfo (MsgProcessedRequest (url request) (method request));
        Logged LogInfo (MsgValidationPost V)],
       Returned (validation_echo V))
| RunEchoGet (V : string) :
    method request = "GET" ->
    truthy_string (query_get (query request) "validationtoken") = Some V ->
    HandlerRun env sdk request override
      ([Logged LogInfo (MsgProcessedRequest (url request) (method request));
        Logged LogInfo (MsgValidationGet V)],
       Returned (validation_echo V))
| RunGetWithoutToken :
    method request = "GET" ->
    no_validation_token request ->
    HandlerRun env sdk request override
      ([Logged LogInfo (MsgProcessedRequest (url request) (method request));
        Logged LogInfo MsgGetWithoutToken],
       Returned get_without_token_response)
| RunUnsupportedMethod :
    method request <> "POST" ->
    method request <> "GET" ->
    HandlerRun env sdk request override
      ([Logged LogInfo (MsgProcessedRequest (url request) (method request));
        Logged LogInfo (MsgUnsupportedMethod (method request))],
       Returned (method_not_allowed_response (method request)))
| RunInvalidJson (parseError : JsThrown) :
    method request = "POST" ->
    no_validation_token request ->
    json request = Thrown parseError ->
    HandlerRun env sdk request override
      ([Logged LogInfo (MsgProcessedRequest (url request) (method request));
        BodyReadJson;
        Logged LogError (MsgJsonParseError (error_text parseError));
        BodyReadText;
        match text request with
        | Returned rawPayloadForError => Logged LogInfo (MsgRawPayload rawPayloadForError)
        | Thrown textError => Logged LogError (MsgRawPayloadUnreadable textError)
        end],
       Returned invalid_json_response)
| RunMalformed (payload : JValue) :
    method request = "POST" ->
    no_validation_token request ->
    json request = Returned payload ->
    js_truthy payload = false ->
    HandlerRun env sdk request override
      ([Logged LogInfo (MsgProcessedRequest (url request) (method request));
        BodyReadJson;
        Logged LogInfo MsgPayloadEmptyOrMalformed],
       Returned malformed_response)
| RunNotConfigured (payload : JValue) :
    method request = "POST" ->
    no_validation_token request ->
    json request = Returned payload ->
    js_truthy payload = true ->
    coordinates_set env = false ->
    HandlerRun env sdk request override
      (intake_prefix request payload ++ [Logged LogWarn MsgEnvNotSet],
       Returned acknowledged_response)
| RunEmptyBatch (payload : JValue) :
    method request = "POST" ->
    no_validation_token request ->
    json request = Returned payload ->
    js_truthy payload = true ->
    coordinates_set env = true ->
    elements (value_member payload) = Some [] ->
    HandlerRun env sdk request override
      (intake_prefix request payload, Returned acknowledged_response)
| RunPublished (payload : JValue) (log : list Event) (cs q : string)
    (notifications : list JValue) :
    method request = "POST" ->
    no_validation_token request ->
    json request = Returned payload ->
    js_truthy payload = true ->
    coordinates_set env = true ->
    truthy_string (SERVICE_BUS_CONNECTION_STRING env) = Some cs ->
    truthy_string (SERVICE_BUS_QUEUE_NAME env) = Some q ->
    elements (value_member payload) = Some notifications ->
    notifications <> [] ->
    forallb loggable notifications = true ->
    forallb is_log log = true ->
    HandlerRun env sdk request override
      (intake_prefix request payload ++ log ++
       PublishInvoked (map to_message notifications)
       :: events (sendMessages (service_in_use sdk override cs q)
                    (map to_message notifications)),
       Returned acknowledged_response)
| RunFaultNotIterable (payload : JValue) :
    method request = "POST" ->
    no_validation_token request ->
    json request = Returned payload ->
    js_truthy payload = true ->
    coordinates_set env = true ->
    elements (value_member payload) = None ->
    HandlerRun env sdk request override
      (intake_prefix request payload ++
       [Logged LogError (MsgHandlerError (error_text not_iterable_error))],
       Returned internal_error_response)
| RunFaultInLoop (payload : JValue) (log : list Event) (notifications : list JValue)
    (e : JsThrown) :
    method request = "POST" ->
    no_validation_token request ->
    json request = Returned payload ->
    js_truthy payload = true ->
    coordinates_set env = true ->
    elements (value_member payload) = Some notifications ->
    forallb loggable notifications = false ->
    forallb is_log log = true ->
    e = null_member_error \/ e = conversion_error ->
    HandlerRun env sdk request override
      (intake_prefix request payload ++ log ++
       [Logged LogError (MsgHandlerError (error_text e))],
       Returned internal_error_response).

(** ** Concrete inputs

    The requests of the specification's test list, used to run the model. *)

Module Samples.

Definition notification_added : JValue :=
  JObj [("subscriptionId", JStr "s1"); ("resource", JStr "r1");
        ("expirationDateTime", JStr "2030-01-01T00:00:00Z");
        ("tenantId", JStr "t1"); ("siteUrl", JStr "/sites/x");
        ("webId", JStr "w1"); ("changeType", JStr "added")].

Definition notification_without_changeType : JValue :=
  JObj [("subscriptionId", JStr "s2"); ("resource", JStr "r2");
        ("expirationDateTime", JStr "2030-01-01T00:00:00Z");
        ("tenantId", JStr "t1"); ("siteUrl", JStr "/sites/y");
        ("webId", JStr "w2")].

Definition batch_payload : JValue :=
  JObj [("value", JArr [notification_added; notification_without_changeType])].

Definition empty_batch_payload : JValue := JObj [("value", JArr [])].

(** The decoded body [{}]. *)
Definition empty_object_payload : JValue := JObj [].

Definition connection_string : string :=
  "Endpoint=sb://example.servicebus.windows.net/;SharedAccessKeyName=send;SharedAccessKey=c2VjcmV0".

Definition env_configured : ProcessEnv :=
  {| SERVICE_BUS_CONNECTION_STRING := Some connection_string;
     SERVICE_BUS_QUEUE_NAME := Some "notifications" |}.

Definition env_unset : ProcessEnv :=
  {| SERVICE_BUS_CONNECTION_STRING := None; SERVICE_BUS_QUEUE_NAME := None |}.

Definition env_without_queue : ProcessEnv :=
  {| SERVICE_BUS_CONNECTION_STRING := Some connection_string;
     SERVICE_BUS_QUEUE_NAME := Some EmptyString |}.

Definition sdk_ok : ServiceBusSdk :=
  {| new_client_result := fun _ => Returned tt;
     create_sender_result := fun _ => Returned tt;
     send_result := fun _ => Returned tt;
     sender_close_result := Returned tt;
     client_close_result := Returned tt |}.

Definition sdk_send_fails : ServiceBusSdk :=
  {| new_client_result := fun _ => Returned tt;
     create_sender_result := fun _ => Returned tt;
     send_result := fun _ => Thrown (ErrorObject "ServiceUnavailable");
     sender_close_result := Returned tt;
     client_close_result := Returned tt |}.

Definition sdk_send_and_close_fail : ServiceBusSdk :=
  {| new_client_result := fun _ => Returned tt;
     create_sender_result := fun _ => Returned tt;
     send_result := fun _ => Thrown (ErrorObject "ServiceUnavailable");
     sender_close_result := Thrown (ErrorObject "link detached");
     client_close_result := Returned tt |}.

Definition sdk_close_fails : ServiceBusSdk :=
  {| new_client_result := fun _ => Returned tt;
     create_sender_result := fun _ => Returned tt;
     send_result := fun _ => Returned tt;
     sender_close_result := Returned tt;
     client_close_result := Thrown (OtherThrown "socket hang up") |}.

(** The send succeeds and closing the sender then fails. *)
Definition sdk_sender_close_fails : ServiceBusSdk :=
  {| new_client_result := fun _ => Returned tt;
     create_sender_result := fun _ => Returned tt;
     send_result := fun _ => Returned tt;
     sender_close_result := Thrown (ErrorObject "link detached");
     client_close_result := Returned tt |}.

(** The client is made, [createSender] throws. *)
Definition sdk_sender_rejected : ServiceBusSdk :=
  {| new_client_result := fun _ => Returned tt;
     create_sender_result :=
       fun _ => Thrown (ErrorObject "The queue or topic name does not match the EntityPath");
     send_result := fun _ => Returned tt;
     sender_close_result := Returned tt;
     client_close_result := Returned tt |}.

(** An SDK that accepts no connection string. *)
Definition sdk_client_rejected : ServiceBusSdk :=
  {| new_client_result :=
       fun _ => Thrown (ErrorObject "Connection string malformed");
     create_sender_result := fun _ => Returned tt;
     send_result := fun _ => Returned tt;
     sender_close_result := Returned tt;
     client_close_result := Returned tt |}.

(** A stub publisher that rejects without logging anything. *)
Definition failing_stub : IServiceBusService :=
  {| sendMessages := fun _ => throw (ErrorObject "stub failure") |}.

Definition publisher : AzureServiceBusService.t :=
  {| AzureServiceBusService.connectionString := connection_string;
     AzureServiceBusService.queueName := "notifications" |}.

Definition endpoint : string := "https://host/api/tokenEndpoint".

(** A body that was never meant to be read: both accessors reject. *)
Definition unreadable (e : string) : Outcome JValue := Thrown (ErrorObject e).

Definition post_with_token : HttpRequest :=
  {| url := endpoint; method := "POST";
     query := [("validationtoken", "a b&c=%20/+")];
     json := unreadable "Unexpected token"; text := Thrown (ErrorObject "Body is unusable") |}.

Definition post_with_token_and_batch : HttpRequest :=
  {| url := endpoint; method := "POST";
     query := [("validationtoken", "a b&c=%20/+")];
     json := Returned batch_payload; text := Returned "{...}" |}.

Definition get_with_token : HttpRequest :=
  {| url := endpoint; method := "GET";
     query := [("validationtoken", "a b&c=%20/+")];
     json := unreadable "Unexpected end of JSON input"; text := Returned EmptyString |}.

Definition post_batch : HttpRequest :=
  {| url := endpoint; method := "POST"; query := [];
     json := Returned batch_payload; text := Thrown (ErrorObject "Body is unusable") |}.

Definition post_empty_batch : HttpRequest :=
  {| url := endpoint; method := "POST"; query := [];
     json := Returned empty_batch_payload; text := Thrown (ErrorObject "Body is unusable") |}.

Definition post_empty_object : HttpRequest :=
  {| url := endpoint; method := "POST"; query := [];
     json := Returned empty_object_payload; text := Thrown (ErrorObject "Body is unusable") |}.

(** The body [not-json]: decoding rejects, and the body, already consumed,
    cannot be read again as text. *)
Definition post_not_json : HttpRequest :=
  {| url := endpoint; method := "POST"; query := [];
     json := Thrown (ErrorObject "Unexpected token 'o', 'not-json' is not valid JSON");
     text := Thrown (ErrorObject "Body is unusable") |}.

End Samples.

Module MoreSamples.

Definition post_of (payload : JValue) : HttpRequest :=
  {| url := Samples.endpoint; method := "POST"; query := [];
     json := Returned payload; text := Thrown (ErrorObject "Body is unusable") |}.

(** A batch whose second element is [null]. *)
Definition batch_with_null : JValue :=
  JObj [("value", JArr [Samples.notification_added; JNull])].

(** A notification whose [subscriptionId] is an object with an own
    [toString] member. *)
Definition notification_that_does_not_render : JValue :=
  JObj [("subscriptionId", JObj [("toString", JNull)]); ("resource", JStr "r1")].

Definition batch_that_does_not_render : JValue :=
  JObj [("value", JArr [Samples.notification_added; notification_that_does_not_render])].

(** A decoded body whose [value] is an object, not an array. *)
Definition value_is_object : JValue :=
  JObj [("value", JObj [("subscriptionId", JStr "s1")])].

Definition notification_with_empty_changeType : JValue :=
  JObj [("subscriptionId", JStr "s3"); ("changeType", JStr EmptyString)].

Definition delete_with_token : HttpRequest :=
  {| url := Samples.endpoint; method := "DELETE";
     query := [("validationtoken", "abc")];
     json := Returned Samples.batch_payload; text := Returned "{...}" |}.

Definition get_without_token : HttpRequest :=
  {| url := Samples.endpoint; method := "GET"; query := [("name", "x")];
     json := Thrown (ErrorObject "Unexpected end of JSON input");
     text := Returned EmptyString |}.

Definition post_with_empty_token : HttpRequest :=
  {| url := Samples.endpoint; method := "POST";
     query := [("code", "k"); ("validationtoken", EmptyString)];
     json := Returned Samples.batch_payload; text := Returned "{...}" |}.

(** A stub publisher that records nothing and succeeds. *)
Definition silent_stub : IServiceBusService :=
  {| sendMessages := fun _ => ret tt |}.

Definition probe_named : HttpRequest :=
  {| url := "https://host/api/httpTriggerWebhook"; method := "GET";
     query := [("name", "Ada")];
     json := Thrown (ErrorObject "Unexpected end of JSON input");
     text := Thrown (ErrorObject "Body is unusable") |}.

Definition probe_with_body : HttpRequest :=
  {| url := "https://host/api/httpTriggerWebhook"; method := "GET";
     query := [("name", EmptyString)];
     json := Thrown (ErrorObject "Unexpected token");
     text := Returned "Grace" |}.

Definition probe_unreadable : HttpRequest :=
  {| url := "https://host/api/httpTriggerWebhook"; method := "GET";
     query := [];
     json := Thrown (ErrorObject "Unexpected token");
     text := Thrown (ErrorObject "Body is unusable") |}.

End MoreSamples.

(** ** Basic facts about the embedding *)

Ltac task_unfold :=
  unfold context_log, context_warn, context_error, request_json, request_text,
    bind, try_catch, try_finally, ret, throw, emit, lift, events, outcome in *.

Lemma truthy_string_nonempty (s : string) :
  nonempty s = true -> truthy_string (Some s) = Some s.
Proof. intros H. unfold truthy_string. rewrite H. reflexivity. Qed.

Lemma truthy_string_Some (o : option string) (s : string) :
  truthy_string o = Some s -> o = Some s /\ nonempty s = true.
Proof.
  destruct o as [s'|]; simpl; [|discriminate].
  destruct (nonempty s') eqn:E; [|discriminate].
  intros [= ->]. split; [reflexivity | exact E].
Qed.

(** On a request with a usable token the handler is a two-line program: it
    never reaches the body accessors, the environment or the publisher. *)
Lemma handler_on_post_token env sdk request override V :
  method request = "POST" ->
  truthy_string (query_get (query request) "validationtoken") = Some V ->
  actualValidateTokenHandler env sdk request override =
    ([Logged LogInfo (MsgProcessedRequest (url request) "POST");
      Logged LogInfo (MsgValidationPost V)],
     Returned (validation_echo V)).
Proof.
  intros Hm Hq. unfold actualValidateTokenHandler.
  rewrite Hm. cbn [String.eqb Ascii.eqb Bool.eqb]. rewrite Hq. reflexivity.
Qed.

Lemma handler_on_get_token env sdk request override V :
  method request = "GET" ->
  truthy_string (query_get (query request) "validationtoken") = Some V ->
  actualValidateTokenHandler env sdk request override =
    ([Logged LogInfo (MsgProcessedRequest (url request) "GET");
      Logged LogInfo (MsgValidationGet V)],
     Returned (validation_echo V)).
Proof.
  intros Hm Hq. unfold actualValidateTokenHandler.
  rewrite Hm. cbn [String.eqb Ascii.eqb Bool.eqb]. rewrite Hq. reflexivity.
Qed.

(** A POST without a token is the intake pipeline under the handler's outer
    [try]/[catch]. *)
Lemma handler_on_post_without_token env sdk request override :
  method request = "POST" ->
  no_validation_token request ->
  actualValidateTokenHandler env sdk request override =
    (context_log (MsgProcessedRequest (url request) "POST") ;;
     try_catch (intake env sdk request override)
       (fun error =>
          context_error (MsgHandlerError (error_text error)) ;;
          ret internal_error_response)).
Proof.
  intros Hm Hq. unfold actualValidateTokenHandler, no_validation_token in *.
  rewrite Hm. cbn [String.eqb Ascii.eqb Bool.eqb]. rewrite Hq. reflexivity.
Qed.

(** ** The validation handshake *)

(** C1. For every non-empty token V, a GET or a POST request whose query
    yields [validationtoken = V] is answered with status 200, the header
    [Content-Type: text/plain] and the body V itself. *)
Theorem validation_token_is_echoed env sdk request override (V : string) :
  nonempty V = true ->
  method request = "POST" \/ method request = "GET" ->
  query_get (query request) "validationtoken" = Some V ->
  outcome (actualValidateTokenHandler env sdk request override) =
    Returned {| status := 200;
                headers := [("Content-Type", "text/plain")];
                response_body := V |}.
Proof.
  intros HV Hmethod Hquery.
  assert (Htoken : truthy_string (query_get (query request) "validationtoken") = Some V)
    by (rewrite Hquery; now apply truthy_string_nonempty).
  destruct Hmethod as [Hpost | Hget].
  - now rewrite (handler_on_post_token env sdk request override V Hpost Htoken).
  - now rewrite (handler_on_get_token env sdk request override V Hget Htoken).
Qed.

Lemma validation_token_is_echoed_witness :
  outcome (actualValidateTokenHandler Samples.env_unset Samples.sdk_ok
             Samples.get_with_token None) =
    Returned {| status := 200;
                headers := [("Content-Type", "text/plain")];
                response_body := "a b&c=%20/+" |}.
Proof.
  apply (validation_token_is_echoed Samples.env_unset Samples.sdk_ok
           Samples.get_with_token None "a b&c=%20/+").
  - reflexivity.
  - right. reflexivity.
  - reflexivity.
Defined.

(** C10. A POST with a non-empty validation token is answered without the
    body being read: two such requests that agree on URL, method and query
    produce the same response and the same events, whatever their body
    accessors would have done, and no event of the run reads the body. *)
Theorem validation_ignores_body env sdk override (request1 request2 : HttpRequest) (V : string) :
  method request1 = "POST" ->
  nonempty V = true ->
  query_get (query request1) "validationtoken" = Some V ->
  url request2 = url request1 ->
  method request2 = method request1 ->
  query request2 = query request1 ->
  actualValidateTokenHandler env sdk request1 override =
    actualValidateTokenHandler env sdk request2 override
  /\ outcome (actualValidateTokenHandler env sdk request1 override) =
       Returned (validation_echo V)
  /\ existsb reads_body (events (actualValidateTokenHandler env sdk request1 override)) = false.
Proof.
  intros Hm HV Hq Hurl Hmethod Hquery.
  assert (Ht1 : truthy_string (query_get (query request1) "validationtoken") = Some V)
    by (rewrite Hq; now apply truthy_string_nonempty).
  assert (Ht2 : truthy_string (query_get (query request2) "validationtoken") = Some V)
    by (rewrite Hquery; exact Ht1).
  assert (Hm2 : method request2 = "POST") by (rewrite Hmethod; exact Hm).
  rewrite (handler_on_post_token env sdk request1 override V Hm Ht1).
  rewrite (handler_on_post_token env sdk request2 override V Hm2 Ht2).
  rewrite Hurl. repeat split.
Qed.

Lemma validation_ignores_body_witness :
  actualValidateTokenHandler Samples.env_configured Samples.sdk_ok
      Samples.post_with_token None =
    actualValidateTokenHandler Samples.env_configured Samples.sdk_ok
      Samples.post_with_token_and_batch None
  /\ outcome (actualValidateTokenHandler Samples.env_configured Samples.sdk_ok
                Samples.post_with_token None) =
       Returned (validation_echo "a b&c=%20/+")
  /\ existsb reads_body
       (events (actualValidateTokenHandler Samples.env_configured Samples.sdk_ok
                  Samples.post_with_token None)) = false.
Proof.
  apply (validation_ignores_body Samples.env_configured Samples.sdk_ok None
           Samples.post_with_token Samples.post_with_token_and_batch "a b&c=%20/+");
    reflexivity.
Defined.

(** ** The Queue Publisher *)

Lemma truthy_string_None (o : option string) :
  truthy_string o = None <-> absent_or_empty o = true.
Proof.
  destruct o as [s|]; simpl; [|tauto].
  destruct (nonempty s); simpl; split; intros H; try reflexivity; discriminate.
Qed.

(** C9. Constructing the publisher with an absent or empty connection string,
    or an absent or empty queue name, throws an error; with both non-empty it
    returns the publisher holding the two coordinates. Construction is a pure
    computation: it causes no event, so nothing has been published when it
    throws. *)
Theorem constructor_fails_fast (connectionString queueName : option string) :
  (absent_or_empty connectionString = true \/ absent_or_empty queueName = true ->
   exists message,
     AzureServiceBusService.constructor connectionString queueName =
       Thrown (ErrorObject message))
  /\ (forall cs q,
        connectionString = Some cs -> nonempty cs = true ->
        queueName = Some q -> nonempty q = true ->
        AzureServiceBusService.constructor connectionString queueName =
          Returned {| AzureServiceBusService.connectionString := cs;
                      AzureServiceBusService.queueName := q |}).
Proof.
  unfold AzureServiceBusService.constructor. split.
  - intros H.
    destruct (truthy_string connectionString) as [cs|] eqn:Ecs; [|eauto].
    destruct (truthy_string queueName) as [q|] eqn:Eq; [|eauto].
    destruct H as [H | H]; apply truthy_string_None in H; congruence.
  - intros cs q -> Hcs -> Hq.
    now rewrite (truthy_string_nonempty cs Hcs), (truthy_string_nonempty q Hq).
Qed.

Lemma constructor_fails_fast_witness :
  (exists message,
     AzureServiceBusService.constructor (Some "Endpoint=sb://x/") (Some EmptyString) =
       Thrown (ErrorObject message))
  /\ AzureServiceBusService.constructor (Some "Endpoint=sb://x/") (Some "queue") =
       Returned {| AzureServiceBusService.connectionString := "Endpoint=sb://x/";
                   AzureServiceBusService.queueName := "queue" |}.
Proof.
  split.
  - apply (proj1 (constructor_fails_fast (Some "Endpoint=sb://x/") (Some EmptyString))).
    right. reflexivity.
  - apply (proj2 (constructor_fails_fast (Some "Endpoint=sb://x/") (Some "queue")));
      reflexivity.
Defined.

Ltac publisher_unfold :=
  unfold AzureServiceBusService.sendMessages_impl,
    AzureServiceBusService.new_ServiceBusClient,
    AzureServiceBusService.sbClient_createSender,
    AzureServiceBusService.send_block,
    AzureServiceBusService.send_catch, AzureServiceBusService.release_block,
    AzureServiceBusService.sender_sendMessages, AzureServiceBusService.sender_close,
    AzureServiceBusService.sbClient_close;
  task_unfold.

(** Case analysis on everything the transport may do during one publish. *)
Ltac sdk_cases sdk this messages :=
  destruct (new_client_result sdk (AzureServiceBusService.connectionString this))
    as [[]|clientError];
  destruct (create_sender_result sdk (AzureServiceBusService.queueName this))
    as [[]|senderError];
  destruct (send_result sdk messages) as [[]|sbError];
  destruct (sender_close_result sdk) as [[]|e1];
  destruct (client_close_result sdk) as [[]|e2].

(** The outcome of a publish: the error of [new ServiceBusClient] or of
    [createSender] if one of them throws, the outcome of the send otherwise,
    whatever the two [close] calls do. *)
Lemma sendMessages_outcome sdk this messages :
  outcome (AzureServiceBusService.sendMessages_impl sdk this messages) =
    match new_client_result sdk (AzureServiceBusService.connectionString this) with
    | Thrown e => Thrown e
    | Returned _ =>
        match create_sender_result sdk (AzureServiceBusService.queueName this) with
        | Thrown e => Thrown e
        | Returned _ => send_result sdk messages
        end
    end.
Proof. publisher_unfold. sdk_cases sdk this messages; reflexivity. Qed.

(** Once the client and the sender exist, a failed send is logged with the
    queue name before it is re-thrown. *)
Lemma sendMessages_logs_failure sdk this messages sbError :
  new_client_result sdk (AzureServiceBusService.connectionString this) = Returned tt ->
  create_sender_result sdk (AzureServiceBusService.queueName this) = Returned tt ->
  send_result sdk messages = Thrown sbError ->
  In (Logged LogError
        (MsgSendFailed (AzureServiceBusService.queueName this) (error_text sbError)))
     (events (AzureServiceBusService.sendMessages_impl sdk this messages)).
Proof.
  intros Hclient Hsender Hsend. publisher_unfold.
  rewrite Hclient, Hsender, Hsend.
  destruct (sender_close_result sdk) as [[]|e1];
    destruct (client_close_result sdk) as [[]|e2]; simpl; tauto.
Qed.

(** Once the client and the sender exist, the release block runs after the
    send whatever the send did, a failure in it is logged, and the outcome
    of the publish is that of the send. *)
Lemma release_never_masks_the_send sdk this messages :
  new_client_result sdk (AzureServiceBusService.connectionString this) = Returned tt ->
  create_sender_result sdk (AzureServiceBusService.queueName this) = Returned tt ->
  outcome (AzureServiceBusService.sendMessages_impl sdk this messages) =
    send_result sdk messages
  /\ (exists before after,
        events (AzureServiceBusService.sendMessages_impl sdk this messages) =
          before ++ SenderSend messages :: after
        /\ In SenderClose after)
  /\ (forall closeError,
        sender_close_result sdk = Thrown closeError
        \/ (sender_close_result sdk = Returned tt
            /\ client_close_result sdk = Thrown closeError) ->
        In (Logged LogError (MsgCloseError (error_text closeError)))
           (events (AzureServiceBusService.sendMessages_impl sdk this messages))).
Proof.
  intros Hclient Hsender. split.
  - now rewrite sendMessages_outcome, Hclient, Hsender.
  - publisher_unfold. rewrite Hclient, Hsender.
    destruct (send_result sdk messages) as [[]|sbError];
      destruct (sender_close_result sdk) as [[]|e1];
      destruct (client_close_result sdk) as [[]|e2]; cbn [app fst snd];
      (split;
       [ eexists [_; _; _], _; split; [reflexivity|]; simpl; tauto
       | intros closeError [H | [H1 H2]]; try discriminate;
         repeat match goal with H : Thrown _ = Thrown _ |- _ => injection H as <- end;
         simpl; tauto ]).
Qed.

(** C8, on the code. The claim's second half holds: a failure of a [close]
    is logged and the caller gets the outcome of the send. Its first half
    does not: the two [close] calls share one [try], so when
    [sender.close()] rejects, [sbClient.close()] is skipped and the client
    stays open, here after a send that succeeded; and [createSender] is
    called before the [try], so when it throws the client just made is
    never closed either. *)
Theorem sender_close_failure_leaves_the_client_open :
  AzureServiceBusService.sendMessages_impl Samples.sdk_sender_close_fails
    Samples.publisher [to_message Samples.notification_added] =
  ([ClientCreated Samples.connection_string;
    SenderCreated "notifications";
    Logged LogInfo (MsgAttemptingSend 1 "notifications");
    SenderSend [to_message Samples.notification_added];
    Logged LogInfo (MsgSent 1 "notifications");
    SenderClose;
    Logged LogError (MsgCloseError "link detached")],
   Returned tt)
  /\ ~ In ClientClose
         (events (AzureServiceBusService.sendMessages_impl Samples.sdk_sender_close_fails
                    Samples.publisher [to_message Samples.notification_added]))
  /\ AzureServiceBusService.sendMessages_impl Samples.sdk_sender_rejected
       Samples.publisher [to_message Samples.notification_added] =
     ([ClientCreated Samples.connection_string; SenderCreated "notifications"],
      Thrown (ErrorObject "The queue or topic name does not match the EntityPath")).
Proof.
  split; [reflexivity|]. split; [|reflexivity].
  cbn. intros H. repeat (destruct H as [H | H]; [discriminate|]). exact H.
Qed.

(** ** The intake pipeline *)

Lemma bind_ret {A B} (a : A) (k : A -> Task B) : bind (ret a) k = k a.
Proof. unfold bind, ret. now destruct (k a). Qed.

Lemma bind_lift_returned {A B} (a : A) (k : A -> Task B) :
  bind (lift (Returned a)) k = k a.
Proof. unfold bind, lift. now destruct (k a). Qed.

Lemma bind_lift_thrown {A B} (e : JsThrown) (k : A -> Task B) :
  bind (lift (Thrown e)) k = ([], Thrown e).
Proof. reflexivity. Qed.

Lemma only_logs_app (t1 t2 : list Event) :
  forallb is_log t1 = true -> forallb is_log t2 = true ->
  forallb is_log (t1 ++ t2) = true.
Proof. intros H1 H2. now rewrite forallb_app, H1, H2. Qed.

Lemma only_logs_untouched (t : list Event) :
  forallb is_log t = true ->
  existsb touches_service_bus t = false
  /\ existsb reads_body t = false
  /\ filter touches_service_bus t = []
  /\ filter is_send t = [].
Proof.
  induction t as [|ev t IH]; [now repeat split|].
  simpl. intros H. apply andb_true_iff in H as [Hev Ht].
  destruct (IH Ht) as (H1 & H2 & H3 & H4).
  destruct ev; try discriminate. simpl. now repeat split.
Qed.

Lemma interpolate_renders (v : option JValue) :
  interpolate v = if renders_opt v then Returned tt else Thrown conversion_error.
Proof. destruct v as [value|]; reflexivity. Qed.

(** What does not convert to a string is an object or an array, hence
    truthy. *)
Lemma unrendered_is_truthy (v : option JValue) :
  renders_opt v = false -> js_truthy_opt v = true.
Proof. destruct v as [[| | | | |]|]; try discriminate; reflexivity. Qed.

Lemma get_member_of (v : JValue) (name : string) :
  is_null v = false -> get_member v name = Returned (member_of v name).
Proof. destruct v; try discriminate; reflexivity. Qed.

(** One turn of the loop on an element it gets past: two log lines, one
    more message. *)
Lemma build_messages_step notification rest messagesToSend :
  loggable notification = true ->
  build_messages (notification :: rest) messagesToSend =
    let (t, r) := build_messages rest (messagesToSend ++ [to_message notification]) in
    (Logged LogInfo
       (MsgProcessingNotification (member_of notification "subscriptionId")
          (member_of notification "resource") (member_of notification "siteUrl"))
     :: (if js_truthy_opt (member_of notification "changeType")
         then Logged LogInfo (MsgChangeTypeFound (member_of notification "changeType"))
         else Logged LogWarn (MsgChangeTypeMissing notification))
     :: t, r).
Proof.
  unfold loggable. intros H.
  repeat (apply andb_true_iff in H as [H ?]).
  apply negb_true_iff in H.
  cbn [build_messages]. rewrite !(get_member_of notification _ H).
  repeat first
    [ rewrite bind_lift_returned
    | rewrite interpolate_renders
    | match goal with
      | E : renders_opt _ = true |- _ => rewrite E
      end ].
  task_unfold. cbn [app].
  destruct (js_truthy_opt (member_of notification "changeType"));
    destruct (build_messages rest (messagesToSend ++ [to_message notification]))
      as [t [m|e]]; reflexivity.
Qed.

(** One turn of the loop on an element it does not get past: it throws, at
    most after the first log line, and no message is added. *)
Lemma build_messages_fault notification rest messagesToSend :
  loggable notification = false ->
  exists log e,
    forallb is_log log = true
    /\ (e = null_member_error \/ e = conversion_error)
    /\ build_messages (notification :: rest) messagesToSend = (log, Thrown e).
Proof.
  intros H.
  destruct notification as [|b|x|s|items|fields]; try discriminate.
  - exists [], null_member_error. repeat split. now left.
  - unfold loggable in H. cbn [is_null negb andb member_of] in H.
    cbn [build_messages get_member].
    rewrite bind_lift_returned, interpolate_renders.
    destruct (renders_opt (lookup_field fields "subscriptionId"));
      [ rewrite bind_lift_returned
      | exists [], conversion_error; repeat split; now right ].
    rewrite bind_lift_returned, interpolate_renders.
    destruct (renders_opt (lookup_field fields "resource"));
      [ rewrite bind_lift_returned
      | exists [], conversion_error; repeat split; now right ].
    rewrite bind_lift_returned, interpolate_renders.
    destruct (renders_opt (lookup_field fields "siteUrl"));
      [ rewrite bind_lift_returned
      | exists [], conversion_error; repeat split; now right ].
    cbn [andb] in H.
    rewrite bind_lift_returned, (unrendered_is_truthy _ H), interpolate_renders, H.
    eexists [_], conversion_error.
    refine (conj _ (conj (or_intror eq_refl) _)); [|task_unfold; reflexivity].
    reflexivity.
Qed.

(** The loop on any list of elements: it only logs; it returns the messages
    it had followed by one per element if it gets past every element, and
    throws one of two [TypeError]s otherwise. *)
Lemma build_messages_general (notifications : list JValue) :
  forall messagesToSend,
  exists log,
    forallb is_log log = true
    /\ (if forallb loggable notifications
        then build_messages notifications messagesToSend =
               (log, Returned (messagesToSend ++ map to_message notifications))
        else exists e,
               (e = null_member_error \/ e = conversion_error)
               /\ build_messages notifications messagesToSend = (log, Thrown e)).
Proof.
  induction notifications as [|notification rest IH]; intros acc.
  - exists []. simpl. now rewrite app_nil_r.
  - cbn [forallb]. destruct (loggable notification) eqn:Hn; cbn [andb].
    + destruct (IH (acc ++ [to_message notification])) as (log & Hlog & Hrun).
      rewrite (build_messages_step notification rest acc Hn).
      destruct (forallb loggable rest).
      * rewrite Hrun, <- app_assoc. eexists. split; [|reflexivity].
        cbn [forallb is_log andb].
        destruct (js_truthy_opt (member_of notification "changeType")); exact Hlog.
      * destruct Hrun as (e & He & Hrun). rewrite Hrun.
        eexists. split; [|exists e; split; [exact He | reflexivity]].
        cbn [forallb is_log andb].
        destruct (js_truthy_opt (member_of notification "changeType")); exact Hlog.
    + destruct (build_messages_fault notification rest acc Hn) as (log & e & Hlog & He & Hrun).
      exists log. split; [exact Hlog|]. exists e. now split.
Qed.

(** A flat object is an element the loop gets past. *)
Lemma primitive_renders (v : JValue) : is_primitive v = true -> renders v = true.
Proof. destruct v; try discriminate; reflexivity. Qed.

Lemma flat_member_renders fields name :
  forallb (fun field => is_primitive (snd field)) fields = true ->
  renders_opt (lookup_field fields name) = true.
Proof.
  induction fields as [|[k v] rest IH]; [reflexivity|].
  cbn [forallb snd lookup_field]. intros H. apply andb_true_iff in H as [Hv Hrest].
  destruct (String.eqb k name); [now apply primitive_renders | now apply IH].
Qed.

Lemma flat_object_is_loggable (notification : JValue) :
  is_flat_object notification = true -> loggable notification = true.
Proof.
  destruct notification as [| | | | |fields]; try discriminate.
  intros H. unfold loggable. cbn [is_null negb member_of andb].
  now rewrite !(flat_member_renders fields _ H).
Qed.

Lemma configured_coordinates env cs q :
  SERVICE_BUS_CONNECTION_STRING env = Some cs -> nonempty cs = true ->
  SERVICE_BUS_QUEUE_NAME env = Some q -> nonempty q = true ->
  truthy_string (SERVICE_BUS_CONNECTION_STRING env) = Some cs
  /\ truthy_string (SERVICE_BUS_QUEUE_NAME env) = Some q.
Proof.
  intros -> Hcs -> Hq. split; now apply truthy_string_nonempty.
Qed.

Lemma notification_batch_shape payload notifications :
  notification_batch payload = Some notifications ->
  exists fields,
    payload = JObj fields
    /\ lookup_field fields "value" = Some (JArr notifications)
    /\ forallb is_object notifications = true.
Proof.
  unfold notification_batch.
  destruct payload as [| | | | |fields]; try discriminate.
  destruct (lookup_field fields "value") as [[| | | |items|]|] eqn:Evalue;
    try discriminate.
  destruct (forallb is_object items) eqn:E; [|discriminate].
  intros [= <-]. exists fields. repeat split; assumption.
Qed.

Lemma notification_batch_truthy payload notifications :
  notification_batch payload = Some notifications -> js_truthy payload = true.
Proof.
  intros H. destruct (notification_batch_shape _ _ H) as (fields & -> & _). reflexivity.
Qed.

Lemma notification_batch_elements payload notifications :
  notification_batch payload = Some notifications ->
  elements (value_member payload) = Some notifications.
Proof.
  intros H. destruct (notification_batch_shape _ _ H) as (fields & -> & Hvalue & _).
  cbn [value_member]. now rewrite Hvalue.
Qed.

Lemma js_iterate_elements (what : string) (v : option JValue) :
  js_iterate what v =
    match elements v with
    | Some notifications => Returned notifications
    | None => Thrown (TypeError (what ++ " is not iterable"))
    end.
Proof. destruct v as [[| | | | |]|]; reflexivity. Qed.

(** With both coordinates set and a decoded body that is not [null], the
    forwarding statement is: iterate [parsedPayload.value], build the
    messages, publish them if there are any. *)
Lemma forward_with_coordinates env sdk override payload cs q :
  truthy_string (SERVICE_BUS_CONNECTION_STRING env) = Some cs ->
  truthy_string (SERVICE_BUS_QUEUE_NAME env) = Some q ->
  js_truthy payload = true ->
  forward_to_service_bus env sdk payload override =
    (notifications <- lift (js_iterate "parsedPayload.value" (value_member payload)) ;;
     messagesToSend <- build_messages notifications [] ;;
     if (0 <? length messagesToSend)%nat
     then try_catch (invoke_sendMessages (service_in_use sdk override cs q) messagesToSend)
                    (fun sbError => ret tt)
     else ret tt).
Proof.
  intros Hcs Hq Htruthy. unfold forward_to_service_bus. rewrite Hcs, Hq.
  destruct (truthy_string_Some _ _ Hcs) as [_ Hcs'].
  destruct (truthy_string_Some _ _ Hq) as [_ Hq'].
  unfold AzureServiceBusService.constructor, service_in_use.
  rewrite (truthy_string_nonempty cs Hcs'), (truthy_string_nonempty q Hq').
  assert (Hvalue : get_member payload "value" = Returned (value_member payload))
    by (destruct payload; try reflexivity; discriminate).
  rewrite Hvalue.
  destruct override as [o|];
    rewrite ?bind_lift_returned, ?bind_ret, bind_lift_returned; reflexivity.
Qed.

(** The last two statements of the forwarding, on any list of elements. *)
Lemma publish_step_cases (sbService : IServiceBusService) (notifications : list JValue) :
  exists log,
    forallb is_log log = true
    /\ (if forallb loggable notifications
        then
          (messagesToSend <- build_messages notifications [] ;;
           if (0 <? length messagesToSend)%nat
           then try_catch (invoke_sendMessages sbService messagesToSend)
                          (fun sbError => ret tt)
           else ret tt) =
          (log ++
           match notifications with
           | [] => []
           | _ :: _ =>
               PublishInvoked (map to_message notifications)
               :: events (sendMessages sbService (map to_message notifications))
           end,
           Returned tt)
        else
          exists e,
            (e = null_member_error \/ e = conversion_error)
            /\ (messagesToSend <- build_messages notifications [] ;;
                if (0 <? length messagesToSend)%nat
                then try_catch (invoke_sendMessages sbService messagesToSend)
                               (fun sbError => ret tt)
                else ret tt) = (log, Thrown e)).
Proof.
  destruct (build_messages_general notifications []) as (log & Hlog & Hrun).
  exists log. split; [exact Hlog|].
  destruct (forallb loggable notifications).
  - rewrite Hrun. cbn [app]. unfold invoke_sendMessages. task_unfold.
    destruct notifications as [|n rest]; cbn [app map length Nat.ltb Nat.leb];
      [ reflexivity
      | match goal with
        | |- context [sendMessages ?s ?m] => destruct (sendMessages s m) as [t [[]|e]]
        end; cbn [app fst snd]; rewrite ?app_nil_r; reflexivity ].
  - destruct Hrun as (e & He & Hrun). exists e. split; [exact He|]. now rewrite Hrun.
Qed.

(** With both coordinates set, a batch the loop gets through is turned into
    messages and, unless it is empty, handed to the service once; whatever
    the service does, the statement completes normally. *)
Lemma forward_on_batch env sdk override payload notifications cs q :
  js_truthy payload = true ->
  elements (value_member payload) = Some notifications ->
  forallb loggable notifications = true ->
  truthy_string (SERVICE_BUS_CONNECTION_STRING env) = Some cs ->
  truthy_string (SERVICE_BUS_QUEUE_NAME env) = Some q ->
  exists log,
    forallb is_log log = true
    /\ forward_to_service_bus env sdk payload override =
         (log ++
          match notifications with
          | [] => []
          | _ :: _ =>
              PublishInvoked (map to_message notifications)
              :: events (sendMessages (service_in_use sdk override cs q)
                           (map to_message notifications))
          end,
          Returned tt).
Proof.
  intros Htruthy Hel Hlog Hcs Hq.
  rewrite (forward_with_coordinates env sdk override payload cs q Hcs Hq Htruthy).
  rewrite js_iterate_elements, Hel, bind_lift_returned.
  destruct (publish_step_cases (service_in_use sdk override cs q) notifications)
    as (log & Honly & Hstep).
  rewrite Hlog in Hstep. exists log. now split.
Qed.

(** Without coordinates nothing is forwarded: one warning, no call. *)
Lemma forward_without_coordinates env sdk override payload :
  absent_or_empty (SERVICE_BUS_CONNECTION_STRING env) = true
  \/ absent_or_empty (SERVICE_BUS_QUEUE_NAME env) = true ->
  forward_to_service_bus env sdk payload override =
    ([Logged LogWarn MsgEnvNotSet], Returned tt).
Proof.
  intros H. unfold forward_to_service_bus.
  destruct H as [H | H]; apply truthy_string_None in H; rewrite H.
  - reflexivity.
  - destruct (truthy_string (SERVICE_BUS_CONNECTION_STRING env)); reflexivity.
Qed.

(** The intake pipeline on a truthy decoded body. *)
Lemma intake_on_truthy_payload env sdk request override payload :
  json request = Returned payload ->
  js_truthy payload = true ->
  intake env sdk request override =
    (emit BodyReadJson ;;
     context_log (MsgReceivedNotifications payload) ;;
     forward_to_service_bus env sdk payload override ;;
     ret acknowledged_response).
Proof.
  intros Hjson Htruthy. unfold intake, request_json.
  rewrite Hjson. task_unfold. cbn [app]. rewrite Htruthy. cbn [negb].
  destruct (forward_to_service_bus env sdk payload override) as [t [[]|e]]; reflexivity.
Qed.

Lemma existsb_app_false {A} (f : A -> bool) (l1 l2 : list A) :
  existsb f l1 = false -> existsb f l2 = false -> existsb f (l1 ++ l2) = false.
Proof. intros H1 H2. now rewrite existsb_app, H1, H2. Qed.

(** What the handler does once forwarding has completed, either way. *)
Lemma handler_when_forward_returns env sdk request override payload t :
  method request = "POST" ->
  no_validation_token request ->
  json request = Returned payload ->
  js_truthy payload = true ->
  forward_to_service_bus env sdk payload override = (t, Returned tt) ->
  actualValidateTokenHandler env sdk request override =
    (Logged LogInfo (MsgProcessedRequest (url request) "POST")
     :: BodyReadJson
     :: Logged LogInfo (MsgReceivedNotifications payload)
     :: t,
     Returned acknowledged_response).
Proof.
  intros Hm Hq Hjson Htruthy Hforward.
  rewrite (handler_on_post_without_token env sdk request override Hm Hq).
  rewrite (intake_on_truthy_payload env sdk request override payload Hjson Htruthy).
  rewrite Hforward. task_unfold. cbn [app]. now rewrite app_nil_r.
Qed.

Lemma handler_when_forward_throws env sdk request override payload t e :
  method request = "POST" ->
  no_validation_token request ->
  json request = Returned payload ->
  js_truthy payload = true ->
  forward_to_service_bus env sdk payload override = (t, Thrown e) ->
  actualValidateTokenHandler env sdk request override =
    (Logged LogInfo (MsgProcessedRequest (url request) "POST")
     :: BodyReadJson
     :: Logged LogInfo (MsgReceivedNotifications payload)
     :: t ++ [Logged LogError (MsgHandlerError (error_text e))],
     Returned internal_error_response).
Proof.
  intros Hm Hq Hjson Htruthy Hforward.
  rewrite (handler_on_post_without_token env sdk request override Hm Hq).
  rewrite (intake_on_truthy_payload env sdk request override payload Hjson Htruthy).
  rewrite Hforward. task_unfold. reflexivity.
Qed.

(** The only decoded bodies answered with the malformed-payload response are
    the falsy ones: [null], [false], zero and the empty string. *)
Lemma malformed_response_only_for_falsy env sdk request override payload :
  method request = "POST" ->
  no_validation_token request ->
  json request = Returned payload ->
  (outcome (actualValidateTokenHandler env sdk request override) =
     Returned malformed_response
   <-> js_truthy payload = false).
Proof.
  intros Hm Hq Hjson. destruct (js_truthy payload) eqn:Htruthy.
  - split; [|discriminate]. intros Hout. exfalso.
    destruct (forward_to_service_bus env sdk payload override) as [t [[]|e]] eqn:Hf.
    + rewrite (handler_when_forward_returns _ _ _ _ _ _ Hm Hq Hjson Htruthy Hf) in Hout.
      discriminate.
    + rewrite (handler_when_forward_throws _ _ _ _ _ _ _ Hm Hq Hjson Htruthy Hf) in Hout.
      discriminate.
  - split; [reflexivity|]. intros _.
    rewrite (handler_on_post_without_token env sdk request override Hm Hq).
    unfold intake, request_json. rewrite Hjson. task_unfold. cbn [app].
    rewrite Htruthy. reflexivity.
Qed.

(** C3, on the code. The decoded body [{}] is valid JSON without a top-level
    [value] collection, yet it is not answered with status 400: the guard
    [if (!parsedPayload)] lets it through, and the request ends as an
    internal error (status 500) when the coordinates are set, because
    iterating the missing [value] throws, and as an acknowledgement (status
    202) when they are not. *)
Theorem missing_value_collection_is_not_rejected :
  has_value_collection Samples.empty_object_payload = false
  /\ actualValidateTokenHandler Samples.env_configured Samples.sdk_ok
       Samples.post_empty_object None =
     ([Logged LogInfo (MsgProcessedRequest Samples.endpoint "POST");
       BodyReadJson;
       Logged LogInfo (MsgReceivedNotifications Samples.empty_object_payload);
       Logged LogError (MsgHandlerError "parsedPayload.value is not iterable")],
      Returned {| status := 500; headers := [];
                  response_body := "An internal error occurred while processing the request." |})
  /\ outcome (actualValidateTokenHandler Samples.env_unset Samples.sdk_ok
                Samples.post_empty_object None) =
     Returned {| status := 202; headers := [];
                 response_body := "Notification acknowledged and queued for processing." |}.
Proof. repeat split. Qed.

(** C4. The loop turns a batch of notifications into messages one to one and
    in order. For notification objects whose logged members
    ([subscriptionId], [resource], [siteUrl], [changeType]) convert to
    strings, as the string members of the notifications of the specification
    always do, it returns as many messages as there are notifications, the
    i-th message has the i-th notification itself as its body (so every
    member reads the same, and a [changeType] that is absent stays absent)
    and [application/json] as its content type; and when the handler
    publishes a non-empty batch, that list is what it passes to the
    publisher. *)
Theorem transformation_is_one_to_one (notifications : list JValue) :
  forallb is_object notifications = true ->
  forallb loggable notifications = true ->
  exists messages,
    outcome (build_messages notifications []) = Returned messages
    /\ length messages = length notifications
    /\ (forall i notification,
          nth_error notifications i = Some notification ->
          exists message,
            nth_error messages i = Some message
            /\ body message = notification
            /\ contentType message = "application/json"
            /\ (forall name, get_member (body message) name = get_member notification name)
            /\ (get_member notification "changeType" = Returned None ->
                get_member (body message) "changeType" = Returned None))
    /\ (forall env sdk override request payload cs q,
          method request = "POST" ->
          no_validation_token request ->
          json request = Returned payload ->
          notification_batch payload = Some notifications ->
          (0 < length notifications)%nat ->
          SERVICE_BUS_CONNECTION_STRING env = Some cs -> nonempty cs = true ->
          SERVICE_BUS_QUEUE_NAME env = Some q -> nonempty q = true ->
          In (PublishInvoked messages)
             (events (actualValidateTokenHandler env sdk request override))).
Proof.
  intros Hobj Hloggable.
  destruct (build_messages_general notifications []) as (log & Hlog & Hrun).
  rewrite Hloggable in Hrun.
  exists (map to_message notifications). repeat split.
  - unfold outcome. now rewrite Hrun.
  - apply length_map.
  - intros i notification Hnth. exists (to_message notification).
    repeat split; [|tauto]. now rewrite nth_error_map, Hnth.
  - intros env sdk override request payload cs q Hm Hq Hjson Hbatch Hlen Hcs Hcs' Hqn Hqn'.
    destruct (configured_coordinates env cs q Hcs Hcs' Hqn Hqn') as [Tcs Tq].
    destruct (forward_on_batch env sdk override payload notifications cs q
                (notification_batch_truthy _ _ Hbatch)
                (notification_batch_elements _ _ Hbatch) Hloggable Tcs Tq)
      as (log' & _ & Hforward).
    rewrite (handler_when_forward_returns _ _ _ _ _ _ Hm Hq Hjson
               (notification_batch_truthy _ _ Hbatch) Hforward).
    destruct notifications as [|n rest]; [simpl in Hlen; lia|].
    unfold events. cbn [fst]. do 3 right. apply in_or_app. right. left. reflexivity.
Qed.

Lemma transformation_is_one_to_one_witness :
  exists messages,
    outcome (build_messages [Samples.notification_added;
                             Samples.notification_without_changeType] []) =
      Returned messages
    /\ length messages = 2%nat
    /\ (exists message,
          nth_error messages 1 = Some message
          /\ body message = Samples.notification_without_changeType
          /\ get_member (body message) "changeType" = Returned None)
    /\ In (PublishInvoked messages)
          (events (actualValidateTokenHandler Samples.env_configured Samples.sdk_ok
                     Samples.post_batch None)).
Proof.
  destruct (transformation_is_one_to_one
              [Samples.notification_added; Samples.notification_without_changeType]
              eq_refl eq_refl)
    as (messages & Hrun & Hlen & Hnth & Hpublish).
  exists messages. repeat split.
  - exact Hrun.
  - exact Hlen.
  - destruct (Hnth 1%nat Samples.notification_without_changeType eq_refl)
      as (message & H1 & H2 & _ & _ & H5).
    exists message. repeat split; [exact H1 | exact H2 | apply H5; reflexivity].
  - apply (Hpublish Samples.env_configured Samples.sdk_ok None Samples.post_batch
             Samples.batch_payload Samples.connection_string "notifications");
      try reflexivity. simpl. lia.
Defined.

(** C5. A POST without a validation token whose body decodes to
    [{ value: [] }] is answered with status 202, and nothing reaches the
    publisher: [sendMessages] is not invoked and no connection is opened,
    whether or not the coordinates are set and whether or not a service was
    injected. *)
Theorem empty_batch_is_acknowledged_without_publish env sdk override request :
  method request = "POST" ->
  no_validation_token request ->
  json request = Returned (JObj [("value", JArr [])]) ->
  outcome (actualValidateTokenHandler env sdk request override) =
    Returned {| status := 202; headers := [];
                response_body := "Notification acknowledged and queued for processing." |}
  /\ existsb touches_service_bus
       (events (actualValidateTokenHandler env sdk request override)) = false.
Proof.
  intros Hm Hq Hjson.
  assert (Hbatch : notification_batch (JObj [("value", JArr [])]) = Some [])
    by reflexivity.
  assert (Hforward : exists t,
             existsb touches_service_bus t = false
             /\ forward_to_service_bus env sdk (JObj [("value", JArr [])]) override =
                  (t, Returned tt)).
  { destruct (truthy_string (SERVICE_BUS_CONNECTION_STRING env)) as [cs|] eqn:Ecs.
    - destruct (truthy_string (SERVICE_BUS_QUEUE_NAME env)) as [q|] eqn:Eq.
      + destruct (forward_on_batch env sdk override (JObj [("value", JArr [])]) [] cs q
                     eq_refl eq_refl eq_refl Ecs Eq)
          as (log & Hlog & Hf).
        exists log. rewrite app_nil_r in Hf.
        split; [exact (proj1 (only_logs_untouched log Hlog)) | exact Hf].
      + exists [Logged LogWarn MsgEnvNotSet]. split; [reflexivity|].
        apply forward_without_coordinates. right. now apply truthy_string_None.
    - exists [Logged LogWarn MsgEnvNotSet]. split; [reflexivity|].
      apply forward_without_coordinates. left. now apply truthy_string_None. }
  destruct Hforward as (t & Ht & Hf).
  rewrite (handler_when_forward_returns _ _ _ _ _ _ Hm Hq Hjson eq_refl Hf).
  split; [reflexivity | exact Ht].
Qed.

Lemma empty_batch_is_acknowledged_without_publish_witness :
  outcome (actualValidateTokenHandler Samples.env_configured Samples.sdk_send_fails
             Samples.post_empty_batch (Some Samples.failing_stub)) =
    Returned {| status := 202; headers := [];
                response_body := "Notification acknowledged and queued for processing." |}
  /\ existsb touches_service_bus
       (events (actualValidateTokenHandler Samples.env_configured Samples.sdk_send_fails
                  Samples.post_empty_batch (Some Samples.failing_stub))) = false.
Proof.
  apply (empty_batch_is_acknowledged_without_publish Samples.env_configured
           Samples.sdk_send_fails (Some Samples.failing_stub) Samples.post_empty_batch);
    reflexivity.
Defined.

(** C6. A POST without a validation token whose body cannot be decoded as
    JSON is answered with status 400 and the invalid-JSON reason. The parse
    error is logged first; reading the raw body for the log may itself fail,
    which is logged too and changes nothing of the answer. Nothing reaches
    the publisher. *)
Theorem invalid_json_is_rejected env sdk override request parseError :
  method request = "POST" ->
  no_validation_token request ->
  json request = Thrown parseError ->
  let run := actualValidateTokenHandler env sdk request override in
  outcome run =
    Returned {| status := 400; headers := [];
                response_body := "Invalid JSON payload for notification." |}
  /\ In (Logged LogError (MsgJsonParseError (error_text parseError))) (events run)
  /\ (forall textError,
        text request = Thrown textError ->
        In (Logged LogError (MsgRawPayloadUnreadable textError)) (events run))
  /\ (forall rawPayloadForError,
        text request = Returned rawPayloadForError ->
        In (Logged LogInfo (MsgRawPayload rawPayloadForError)) (events run))
  /\ existsb touches_service_bus (events run) = false.
Proof.
  intros Hm Hq Hjson run. subst run.
  rewrite (handler_on_post_without_token env sdk request override Hm Hq).
  unfold intake, request_json, request_text. rewrite Hjson. task_unfold.
  destruct (text request) as [raw|textError]; cbn [app fst snd];
    (repeat split;
     [ simpl; tauto
     | intros ? [= <-] || (intros ? [=]); simpl; tauto
     | intros ? [= <-] || (intros ? [=]); simpl; tauto ]).
Qed.

Lemma invalid_json_is_rejected_witness :
  outcome (actualValidateTokenHandler Samples.env_configured Samples.sdk_ok
             Samples.post_not_json None) =
    Returned {| status := 400; headers := [];
                response_body := "Invalid JSON payload for notification." |}
  /\ In (Logged LogError (MsgRawPayloadUnreadable (ErrorObject "Body is unusable")))
        (events (actualValidateTokenHandler Samples.env_configured Samples.sdk_ok
                   Samples.post_not_json None)).
Proof.
  pose proof (invalid_json_is_rejected Samples.env_configured Samples.sdk_ok None
                Samples.post_not_json
                (ErrorObject "Unexpected token 'o', 'not-json' is not valid JSON")
                eq_refl eq_refl eq_refl) as H.
  cbv zeta in H. destruct H as (Hout & _ & Htext & _). split.
  - exact Hout.
  - apply Htext. reflexivity.
Defined.

(** C7. A POST without a validation token whose body decodes to a
    notification batch, received while the connection string or the queue
    name is absent or empty, logs the warning, makes no publish attempt
    (neither the injected service nor the transport is touched) and is
    answered with status 202. *)
Theorem missing_coordinates_are_acknowledged env sdk override request payload notifications :
  method request = "POST" ->
  no_validation_token request ->
  json request = Returned payload ->
  notification_batch payload = Some notifications ->
  absent_or_empty (SERVICE_BUS_CONNECTION_STRING env) = true
  \/ absent_or_empty (SERVICE_BUS_QUEUE_NAME env) = true ->
  let run := actualValidateTokenHandler env sdk request override in
  outcome run =
    Returned {| status := 202; headers := [];
                response_body := "Notification acknowledged and queued for processing." |}
  /\ In (Logged LogWarn MsgEnvNotSet) (events run)
  /\ existsb touches_service_bus (events run) = false.
Proof.
  intros Hm Hq Hjson Hbatch Henv run. subst run.
  rewrite (handler_when_forward_returns _ _ _ _ _ _ Hm Hq Hjson
             (notification_batch_truthy _ _ Hbatch)
             (forward_without_coordinates env sdk override payload Henv)).
  repeat split. simpl. tauto.
Qed.

Lemma missing_coordinates_are_acknowledged_witness :
  outcome (actualValidateTokenHandler Samples.env_without_queue Samples.sdk_ok
             Samples.post_batch (Some Samples.failing_stub)) =
    Returned {| status := 202; headers := [];
                response_body := "Notification acknowledged and queued for processing." |}
  /\ In (Logged LogWarn MsgEnvNotSet)
        (events (actualValidateTokenHandler Samples.env_without_queue Samples.sdk_ok
                   Samples.post_batch (Some Samples.failing_stub)))
  /\ existsb touches_service_bus
       (events (actualValidateTokenHandler Samples.env_without_queue Samples.sdk_ok
                  Samples.post_batch (Some Samples.failing_stub))) = false.
Proof.
  apply (missing_coordinates_are_acknowledged Samples.env_without_queue Samples.sdk_ok
           (Some Samples.failing_stub) Samples.post_batch Samples.batch_payload
           [Samples.notification_added; Samples.notification_without_changeType]);
    try reflexivity.
  right. reflexivity.
Defined.

(** C2. A POST without a validation token whose body decodes to a non-empty
    batch of notification objects whose logged members convert to strings,
    received with both coordinates set, is answered with status 202 even
    when the publish call fails. Everything the publisher did before
    failing, its logging included, is in the handler's trace right after the
    call, and nothing follows it: the error is swallowed. With the publisher
    of this repository ([AzureServiceBusService], no injected service), once
    its client and sender exist the publish fails exactly when the sender's
    send throws, and that failure has been logged as an error with the queue
    name. *)
Theorem publish_failure_is_still_acknowledged
    env sdk override request payload notifications cs q sbError :
  method request = "POST" ->
  no_validation_token request ->
  json request = Returned payload ->
  notification_batch payload = Some notifications ->
  forallb loggable notifications = true ->
  (0 < length notifications)%nat ->
  SERVICE_BUS_CONNECTION_STRING env = Some cs -> nonempty cs = true ->
  SERVICE_BUS_QUEUE_NAME env = Some q -> nonempty q = true ->
  outcome (sendMessages (service_in_use sdk override cs q)
             (map to_message notifications)) = Thrown sbError ->
  let run := actualValidateTokenHandler env sdk request override in
  outcome run =
    Returned {| status := 202; headers := [];
                response_body := "Notification acknowledged and queued for processing." |}
  /\ (exists before,
        events run =
          before ++ PublishInvoked (map to_message notifications)
                 :: events (sendMessages (service_in_use sdk override cs q)
                              (map to_message notifications)))
  /\ (override = None ->
      new_client_result sdk cs = Returned tt ->
      create_sender_result sdk q = Returned tt ->
      send_result sdk (map to_message notifications) = Thrown sbError
      /\ In (Logged LogError (MsgSendFailed q (error_text sbError))) (events run)).
Proof.
  intros Hm Hq Hjson Hbatch Hloggable Hlen Hcs Hcs' Hqn Hqn' Hfail run. subst run.
  destruct (configured_coordinates env cs q Hcs Hcs' Hqn Hqn') as [Tcs Tq].
  destruct (forward_on_batch env sdk override payload notifications cs q
              (notification_batch_truthy _ _ Hbatch)
              (notification_batch_elements _ _ Hbatch) Hloggable Tcs Tq)
    as (log & _ & Hforward).
  rewrite (handler_when_forward_returns _ _ _ _ _ _ Hm Hq Hjson
             (notification_batch_truthy _ _ Hbatch) Hforward).
  destruct notifications as [|n rest]; [simpl in Hlen; lia|].
  split; [reflexivity|]. split.
  - eexists (_ :: _ :: _ :: log). reflexivity.
  - intros -> Hclient Hsender. unfold service_in_use in *.
    cbn [sendMessages AzureServiceBusService.as_service] in *.
    rewrite sendMessages_outcome in Hfail.
    cbn [AzureServiceBusService.connectionString AzureServiceBusService.queueName] in Hfail.
    rewrite Hclient, Hsender in Hfail. split; [exact Hfail|].
    unfold events at 1. cbn [fst]. do 3 right. apply in_or_app. right. right.
    exact (sendMessages_logs_failure sdk
             {| AzureServiceBusService.connectionString := cs;
                AzureServiceBusService.queueName := q |} _ sbError Hclient Hsender Hfail).
Qed.

Lemma publish_failure_is_still_acknowledged_witness :
  outcome (actualValidateTokenHandler Samples.env_configured Samples.sdk_send_fails
             Samples.post_batch None) =
    Returned {| status := 202; headers := [];
                response_body := "Notification acknowledged and queued for processing." |}
  /\ In (Logged LogError (MsgSendFailed "notifications" "ServiceUnavailable"))
        (events (actualValidateTokenHandler Samples.env_configured Samples.sdk_send_fails
                   Samples.post_batch None)).
Proof.
  pose proof (publish_failure_is_still_acknowledged Samples.env_configured
                Samples.sdk_send_fails None Samples.post_batch Samples.batch_payload
                [Samples.notification_added; Samples.notification_without_changeType]
                Samples.connection_string "notifications"
                (ErrorObject "ServiceUnavailable")
                eq_refl eq_refl eq_refl eq_refl eq_refl) as H.
  cbv zeta in H.
  destruct (H ltac:(simpl; lia) eq_refl eq_refl eq_refl eq_refl eq_refl)
    as (Hout & _ & Hlog).
  split.
  - exact Hout.
  - apply (Hlog eq_refl eq_refl eq_refl).
Defined.

(** ** Runs of the specification's examples *)

(** An unsupported method is answered with status 405. *)
Example delete_is_not_allowed :
  actualValidateTokenHandler Samples.env_configured Samples.sdk_ok
    {| url := Samples.endpoint; method := "DELETE"; query := [];
       json := Returned Samples.batch_payload; text := Returned EmptyString |} None =
  ([Logged LogInfo (MsgProcessedRequest Samples.endpoint "DELETE");
    Logged LogInfo (MsgUnsupportedMethod "DELETE")],
   Returned {| status := 405; headers := [];
               response_body := "Method DELETE not allowed or not handled." |}).
Proof. reflexivity. Qed.

(** One notification, coordinates set, a transport that works: status 202,
    and the sender receives exactly one message whose body is the
    notification. *)
Example single_notification_is_published :
  let run :=
    actualValidateTokenHandler Samples.env_configured Samples.sdk_ok
      {| url := Samples.endpoint; method := "POST"; query := [];
         json := Returned (JObj [("value", JArr [Samples.notification_added])]);
         text := Returned EmptyString |} None in
  outcome run = Returned acknowledged_response
  /\ filter touches_service_bus (events run) =
       [PublishInvoked [to_message Samples.notification_added];
        ClientCreated Samples.connection_string;
        SenderCreated "notifications";
        SenderSend [{| body := Samples.notification_added;
                       contentType := "application/json" |}];
        SenderClose;
        ClientClose].
Proof. split; reflexivity. Qed.

(** An empty token is no token: the request is treated as a notification. *)
Example empty_token_is_a_notification :
  outcome (actualValidateTokenHandler Samples.env_unset Samples.sdk_ok
             {| url := Samples.endpoint; method := "POST";
                query := [("validationtoken", EmptyString)];
                json := Returned JNull; text := Returned "null" |} None) =
  Returned malformed_response.
Proof. reflexivity. Qed.

(** A [null] element in the batch makes the loop throw; the outer [catch]
    turns it into status 500 before anything is published. *)
Example null_notification_is_an_internal_error :
  actualValidateTokenHandler Samples.env_configured Samples.sdk_ok
    {| url := Samples.endpoint; method := "POST"; query := [];
       json := Returned (JObj [("value", JArr [JNull])]);
       text := Returned EmptyString |} None =
  ([Logged LogInfo (MsgProcessedRequest Samples.endpoint "POST");
    BodyReadJson;
    Logged LogInfo (MsgReceivedNotifications (JObj [("value", JArr [JNull])]));
    Logged LogError
      (MsgHandlerError "Cannot read properties of null (reading 'subscriptionId')")],
   Returned internal_error_response).
Proof. reflexivity. Qed.

(** ** More on the Queue Publisher *)

(** X1. Whatever the transport does, one publish makes its calls in one
    order and none of them twice: [new ServiceBusClient] on the stored
    connection string; if that returns, [createSender] on the stored queue;
    if that returns, one send of the whole batch and never a second one,
    then [sender.close()]; [sbClient.close()] follows only if closing the
    sender did not fail. *)
Theorem publish_calls_the_transport_once sdk this messages :
  filter touches_service_bus
    (events (AzureServiceBusService.sendMessages_impl sdk this messages)) =
  ClientCreated (AzureServiceBusService.connectionString this)
  :: match new_client_result sdk (AzureServiceBusService.connectionString this) with
     | Thrown _ => []
     | Returned _ =>
         SenderCreated (AzureServiceBusService.queueName this)
         :: match create_sender_result sdk (AzureServiceBusService.queueName this) with
            | Thrown _ => []
            | Returned _ =>
                SenderSend messages
                :: SenderClose
                :: match sender_close_result sdk with
                   | Returned _ => [ClientClose]
                   | Thrown _ => []
                   end
            end
     end.
Proof. publisher_unfold. sdk_cases sdk this messages; reflexivity. Qed.

(** X2. A publish writes an error line exactly when the client and the
    sender were made and then the send or one of the [close] calls failed.
    When [new ServiceBusClient] or [createSender] throws, the publish
    rejects with that error and without any log line at all. *)
Theorem publish_logs_send_and_close_failures_only sdk this messages :
  (existsb is_error_log
     (events (AzureServiceBusService.sendMessages_impl sdk this messages)) = true
   <-> (new_client_result sdk (AzureServiceBusService.connectionString this) = Returned tt
        /\ create_sender_result sdk (AzureServiceBusService.queueName this) = Returned tt
        /\ ~ (send_result sdk messages = Returned tt
              /\ sender_close_result sdk = Returned tt
              /\ client_close_result sdk = Returned tt)))
  /\ (forall e,
        new_client_result sdk (AzureServiceBusService.connectionString this) = Thrown e
        \/ (new_client_result sdk (AzureServiceBusService.connectionString this) = Returned tt
            /\ create_sender_result sdk (AzureServiceBusService.queueName this) = Thrown e) ->
        outcome (AzureServiceBusService.sendMessages_impl sdk this messages) = Thrown e
        /\ existsb is_log
             (events (AzureServiceBusService.sendMessages_impl sdk this messages)) = false).
Proof.
  publisher_unfold. split.
  - sdk_cases sdk this messages; cbn;
      (split;
       [ intros H; try discriminate; repeat split;
         intros (H1 & H2 & H3); discriminate
       | intros (H1 & H2 & H3); try discriminate; try reflexivity;
         exfalso; apply H3; repeat split ]).
  - intros e [H | [H1 H2]].
    + rewrite H. now split.
    + rewrite H1, H2. now split.
Qed.

Lemma publish_logs_send_and_close_failures_only_witness :
  existsb is_error_log
    (events (AzureServiceBusService.sendMessages_impl Samples.sdk_close_fails
               Samples.publisher [to_message Samples.notification_added])) = true
  /\ (outcome (AzureServiceBusService.sendMessages_impl Samples.sdk_client_rejected
                 Samples.publisher [to_message Samples.notification_added]) =
        Thrown (ErrorObject "Connection string malformed")
      /\ existsb is_log
           (events (AzureServiceBusService.sendMessages_impl Samples.sdk_client_rejected
                      Samples.publisher [to_message Samples.notification_added])) = false).
Proof.
  split.
  - apply (proj2 (proj1 (publish_logs_send_and_close_failures_only Samples.sdk_close_fails
                            Samples.publisher [to_message Samples.notification_added]))).
    repeat split. intros (_ & _ & H). discriminate H.
  - apply (proj2 (publish_logs_send_and_close_failures_only Samples.sdk_client_rejected
                    Samples.publisher [to_message Samples.notification_added])).
    left. reflexivity.
Defined.

(** ** The paths of the handler *)

Lemma coordinates_set_true env :
  coordinates_set env = true <->
  exists cs q,
    truthy_string (SERVICE_BUS_CONNECTION_STRING env) = Some cs
    /\ truthy_string (SERVICE_BUS_QUEUE_NAME env) = Some q.
Proof.
  unfold coordinates_set, truthy_string, absent_or_empty.
  destruct (SERVICE_BUS_CONNECTION_STRING env) as [cs|];
    destruct (SERVICE_BUS_QUEUE_NAME env) as [q|]; cbn;
    try destruct (nonempty cs); try destruct (nonempty q); cbn;
    (split; [ intros H; try discriminate; eauto
            | intros (cs' & q' & H1 & H2); try discriminate; reflexivity ]).
Qed.

Lemma coordinates_set_false env :
  coordinates_set env = false <->
  (absent_or_empty (SERVICE_BUS_CONNECTION_STRING env) = true
   \/ absent_or_empty (SERVICE_BUS_QUEUE_NAME env) = true).
Proof.
  unfold coordinates_set.
  destruct (absent_or_empty (SERVICE_BUS_CONNECTION_STRING env));
    destruct (absent_or_empty (SERVICE_BUS_QUEUE_NAME env)); cbn; intuition discriminate.
Qed.

Lemma forwardable_of_elements payload notifications :
  elements (value_member payload) = Some notifications ->
  forwardable payload = forallb loggable notifications.
Proof. intros H. unfold forwardable. now rewrite H. Qed.

Lemma forwardable_without_elements payload :
  elements (value_member payload) = None -> forwardable payload = false.
Proof. intros H. unfold forwardable. now rewrite H. Qed.

Ltac by_path P Hm :=
  let H := fresh "Hpath" in
  pose proof P as H; unfold intake_prefix in H; cbn [app] in H;
  rewrite Hm in H; cbn [app]; exact H.

(** Every run of the handler follows one of the paths of [HandlerRun]. *)
Lemma handler_follows_a_path env sdk request override :
  HandlerRun env sdk request override
    (actualValidateTokenHandler env sdk request override).
Proof.
  destruct (String.eqb (method request) "POST") eqn:Epost.
  - apply String.eqb_eq in Epost.
    destruct (truthy_string (query_get (query request) "validationtoken")) as [V|] eqn:Etoken.
    { rewrite (handler_on_post_token env sdk request override V Epost Etoken).
      by_path (RunEchoPost env sdk request override V Epost Etoken) Epost. }
    assert (Hno : no_validation_token request) by exact Etoken.
    destruct (json request) as [payload|parseError] eqn:Ejson.
    + destruct (js_truthy payload) eqn:Etruthy.
      * destruct (coordinates_set env) eqn:Eset.
        -- destruct (proj1 (coordinates_set_true env) Eset) as (cs & q & Ecs & Eq).
           pose proof (forward_with_coordinates env sdk override payload cs q Ecs Eq Etruthy)
             as Hforward.
           rewrite js_iterate_elements in Hforward.
           destruct (elements (value_member payload)) as [notifications|] eqn:Eiter.
           ++ rewrite bind_lift_returned in Hforward.
              destruct (publish_step_cases (service_in_use sdk override cs q) notifications)
                as (log & Hlog & Hstep).
              destruct (forallb loggable notifications) eqn:Eloggable.
              ** rewrite Hstep in Hforward.
                 destruct notifications as [|n rest].
                 --- assert (Hempty : log = [])
                       by (cbn in Hstep; rewrite app_nil_r in Hstep; congruence).
                     subst log.
                     rewrite (handler_when_forward_returns _ _ _ _ _ _
                                Epost Hno Ejson Etruthy Hforward).
                     by_path (RunEmptyBatch env sdk request override payload
                                Epost Hno Ejson Etruthy Eset Eiter) Epost.
                 --- assert (Hne : n :: rest <> []) by discriminate.
                     rewrite (handler_when_forward_returns _ _ _ _ _ _
                                Epost Hno Ejson Etruthy Hforward).
                     by_path (RunPublished env sdk request override payload log cs q _
                                Epost Hno Ejson Etruthy Eset Ecs Eq Eiter Hne Eloggable Hlog)
                             Epost.
              ** destruct Hstep as (e & He & Hstep). rewrite Hstep in Hforward.
                 rewrite (handler_when_forward_throws _ _ _ _ _ _ _
                            Epost Hno Ejson Etruthy Hforward).
                 by_path (RunFaultInLoop env sdk request override payload log notifications e
                            Epost Hno Ejson Etruthy Eset Eiter Eloggable Hlog He) Epost.
           ++ rewrite bind_lift_thrown in Hforward.
              rewrite (handler_when_forward_throws _ _ _ _ _ _ _
                         Epost Hno Ejson Etruthy Hforward).
              by_path (RunFaultNotIterable env sdk request override payload
                         Epost Hno Ejson Etruthy Eset Eiter) Epost.
        -- assert (Hforward := forward_without_coordinates env sdk override payload
                                (proj1 (coordinates_set_false env) Eset)).
           rewrite (handler_when_forward_returns _ _ _ _ _ _
                      Epost Hno Ejson Etruthy Hforward).
           by_path (RunNotConfigured env sdk request override payload
                      Epost Hno Ejson Etruthy Eset) Epost.
      * rewrite (handler_on_post_without_token env sdk request override Epost Hno).
        unfold intake, request_json. rewrite Ejson. task_unfold. cbn [app].
        rewrite Etruthy. cbn [negb app].
        by_path (RunMalformed env sdk request override payload
                   Epost Hno Ejson Etruthy) Epost.
    + rewrite (handler_on_post_without_token env sdk request override Epost Hno).
      unfold intake, request_json, request_text. rewrite Ejson. task_unfold.
      pose proof (RunInvalidJson env sdk request override parseError Epost Hno Ejson)
        as Hpath.
      rewrite Epost in Hpath.
      destruct (text request) as [raw|textError]; exact Hpath.
  - assert (Hnot_post : method request <> "POST")
      by (intros E; apply String.eqb_eq in E; congruence).
    destruct (String.eqb (method request) "GET") eqn:Eget.
    + apply String.eqb_eq in Eget.
      destruct (truthy_string (query_get (query request) "validationtoken"))
        as [V|] eqn:Etoken.
      * rewrite (handler_on_get_token env sdk request override V Eget Etoken).
        by_path (RunEchoGet env sdk request override V Eget Etoken) Eget.
      * pose proof (RunGetWithoutToken env sdk request override Eget Etoken) as Hpath.
        unfold actualValidateTokenHandler. rewrite Epost.
        rewrite (proj2 (String.eqb_eq _ _) Eget), Etoken. exact Hpath.
    + assert (Hnot_get : method request <> "GET")
        by (intros E; apply String.eqb_eq in E; congruence).
      pose proof (RunUnsupportedMethod env sdk request override Hnot_post Hnot_get)
        as Hpath.
      unfold actualValidateTokenHandler. rewrite Epost, Eget. exact Hpath.
Qed.

(** Adds to the context what each path says about [forwardable]. *)
Ltac path_facts :=
  repeat match goal with
  | H : elements (value_member ?p) = Some ?ns |- _ =>
      lazymatch goal with
      | _ : forwardable p = _ |- _ => fail
      | _ => let F := fresh "Hfwd" in
             pose proof (forwardable_of_elements p ns H) as F
      end
  | H : elements (value_member ?p) = None |- _ =>
      lazymatch goal with
      | _ : forwardable p = _ |- _ => fail
      | _ => let F := fresh "Hfwd" in
             pose proof (forwardable_without_elements p H) as F
      end
  end;
  repeat match goal with
  | H : forallb loggable ?ns = _, F : forwardable _ = forallb loggable ?ns |- _ =>
      rewrite H in F
  | F : forwardable _ = forallb loggable [] |- _ => cbn in F
  end;
  unfold no_validation_token in *.

(** Case analysis on the path a run follows. *)
Ltac on_paths env sdk request override :=
  let Hpath := fresh "Hpath" in
  let run := fresh "run" in
  pose proof (handler_follows_a_path env sdk request override) as Hpath;
  remember (actualValidateTokenHandler env sdk request override) as run;
  destruct Hpath; path_facts.

(** ** The answers of the token endpoint *)

(** X3. The handler never rejects: for every request, environment,
    transport behaviour and injected service it resolves to a response, and
    that response is either the echo of a non-empty token or one of six
    fixed responses (of which only the 405 for an unsupported method mentions
    anything of the request, its method). The status is 200, 202, 400, 405
    or 500, and no error text ever reaches the response. *)
Theorem handler_never_rejects env sdk request override :
  exists response,
    outcome (actualValidateTokenHandler env sdk request override) = Returned response
    /\ ((exists V, nonempty V = true /\ response = validation_echo V)
        \/ In response (fixed_responses (method request)))
    /\ In (status response) [200; 202; 400; 405; 500]%Z.
Proof.
  on_paths env sdk request override;
    (eexists; split; [reflexivity|]; split;
     [ first [ right; simpl; tauto
             | left; eexists; split; [|reflexivity];
               match goal with
               | H : truthy_string _ = Some _ |- _ =>
                   exact (proj2 (truthy_string_Some _ _ H))
               end ]
     | simpl; tauto ]).
Qed.

(** X4. Status 200 is the echo and nothing else: the handler answers 200 if
    and only if the method is POST or GET and the query yields a non-empty
    [validationtoken]. *)
Theorem status_200_iff_token env sdk request override :
  (exists response,
     outcome (actualValidateTokenHandler env sdk request override) = Returned response
     /\ status response = 200%Z)
  <-> ((method request = "POST" \/ method request = "GET")
       /\ exists V, query_get (query request) "validationtoken" = Some V
                    /\ nonempty V = true).
Proof.
  split.
  - intros (response & Hout & Hstatus).
    on_paths env sdk request override; cbn in Hout; injection Hout as <-;
      try discriminate;
      match goal with
      | H : truthy_string _ = Some ?V |- _ =>
          destruct (truthy_string_Some _ _ H) as [Hq Hne]
      end; (split; [tauto | eauto]).
  - intros (Hmethod & V & Hq & Hne).
    assert (Htoken : truthy_string (query_get (query request) "validationtoken") = Some V)
      by (rewrite Hq; now apply truthy_string_nonempty).
    exists (validation_echo V). split; [|reflexivity].
    destruct Hmethod as [Hm | Hm].
    + now rewrite (handler_on_post_token env sdk request override V Hm Htoken).
    + now rewrite (handler_on_get_token env sdk request override V Hm Htoken).
Qed.

(** X5. Status 405 is answered exactly to the requests that are neither a
    POST nor a GET with a usable token. In particular a validation token sent
    with any other method is not echoed. *)
Theorem status_405_iff_not_dispatched env sdk request override :
  (exists response,
     outcome (actualValidateTokenHandler env sdk request override) = Returned response
     /\ status response = 405%Z)
  <-> (method request <> "POST"
       /\ (method request <> "GET" \/ no_validation_token request)).
Proof.
  split.
  - intros (response & Hout & Hstatus).
    on_paths env sdk request override; cbn in Hout; injection Hout as <-;
      try discriminate; (split; [congruence | tauto]).
  - intros (Hpost & Hrest).
    on_paths env sdk request override; try congruence;
      try (destruct Hrest; congruence);
      (eexists; split; reflexivity).
Qed.

(** X6. Status 400 is answered exactly to the POSTs without a usable token
    whose body fails to decode as JSON or decodes to a falsy value ([null],
    [false], zero, the empty string); the shape of a truthy value is never a
    reason for a 400. *)
Theorem status_400_iff_undecodable_or_falsy env sdk request override :
  (exists response,
     outcome (actualValidateTokenHandler env sdk request override) = Returned response
     /\ status response = 400%Z)
  <-> (method request = "POST"
       /\ no_validation_token request
       /\ ((exists parseError, json request = Thrown parseError)
           \/ (exists payload, json request = Returned payload
                               /\ js_truthy payload = false))).
Proof.
  split.
  - intros (response & Hout & Hstatus).
    on_paths env sdk request override; cbn in Hout; injection Hout as <-;
      try discriminate; unfold no_validation_token; repeat split; eauto.
  - intros (Hpost & Htoken & Hbody). unfold no_validation_token in Htoken.
    on_paths env sdk request override; try congruence;
      try (eexists; split; reflexivity);
      destruct Hbody as [(parseError' & Hthrown) | (p & Hp & Hfalsy)]; congruence.
Qed.

(** X7. Status 500 is answered exactly to the POSTs without a usable token
    whose body decodes to a truthy value that the loop cannot get through
    (its [value] is missing or not iterable, or one of the elements is
    [null] or has a logged member that does not convert to a string) while
    both coordinates are set. Whenever the answer is 500, nothing has
    reached the publisher: a batch with one such element is dropped as a
    whole. *)
Theorem status_500_iff_loop_fails env sdk request override :
  ((exists response,
      outcome (actualValidateTokenHandler env sdk request override) = Returned response
      /\ status response = 500%Z)
   <-> (method request = "POST"
        /\ no_validation_token request
        /\ exists payload,
             json request = Returned payload
             /\ js_truthy payload = true
             /\ coordinates_set env = true
             /\ forwardable payload = false))
  /\ (forall response,
        outcome (actualValidateTokenHandler env sdk request override) = Returned response ->
        status response = 500%Z ->
        existsb touches_service_bus
          (events (actualValidateTokenHandler env sdk request override)) = false).
Proof.
  split; [split|].
  - intros (response & Hout & Hstatus).
    on_paths env sdk request override; cbn in Hout; injection Hout as <-;
      try discriminate; unfold no_validation_token; repeat split; eauto 10.
  - intros (Hpost & Htoken & payload & Hjson & Htruthy & Hset & Hfwd).
    unfold no_validation_token in Htoken.
    on_paths env sdk request override; try congruence;
      (eexists; split; reflexivity).
  - intros response Hout Hstatus.
    on_paths env sdk request override; cbn in Hout; injection Hout as <-;
      try discriminate; unfold events, intake_prefix; cbn [fst app existsb touches_service_bus orb].
    + reflexivity.
    + match goal with
      | H : forallb is_log ?l = true |- _ =>
          destruct (only_logs_untouched l H) as (Hl & _)
      end.
      now rewrite existsb_app, Hl.
Qed.

(** X8. Status 202 is answered exactly to the POSTs without a usable token
    whose body decodes to a truthy value and either a coordinate is missing
    (then any truthy value will do) or the loop gets through the value: it
    can be iterated, and no element is [null] or has a logged member that
    does not convert to a string. *)
Theorem status_202_iff_acknowledged env sdk request override :
  (exists response,
     outcome (actualValidateTokenHandler env sdk request override) = Returned response
     /\ status response = 202%Z)
  <-> (method request = "POST"
       /\ no_validation_token request
       /\ exists payload,
            json request = Returned payload
            /\ js_truthy payload = true
            /\ (coordinates_set env = false \/ forwardable payload = true)).
Proof.
  split.
  - intros (response & Hout & Hstatus).
    on_paths env sdk request override; cbn in Hout; injection Hout as <-;
      try discriminate; unfold no_validation_token; repeat split; eauto 10.
  - intros (Hpost & Htoken & payload & Hjson & Htruthy & Hcase).
    unfold no_validation_token in Htoken.
    on_paths env sdk request override; try congruence;
      try (eexists; split; reflexivity);
      destruct Hcase; congruence.
Qed.

Lemma status_405_iff_not_dispatched_witness :
  exists response,
    outcome (actualValidateTokenHandler Samples.env_configured Samples.sdk_ok
               MoreSamples.delete_with_token None) = Returned response
    /\ status response = 405%Z.
Proof.
  apply (proj2 (status_405_iff_not_dispatched Samples.env_configured Samples.sdk_ok
                  MoreSamples.delete_with_token None)).
  split; [discriminate | left; discriminate].
Defined.

Lemma status_400_iff_undecodable_or_falsy_witness :
  exists response,
    outcome (actualValidateTokenHandler Samples.env_configured Samples.sdk_ok
               (MoreSamples.post_of (JStr EmptyString)) None) = Returned response
    /\ status response = 400%Z.
Proof.
  apply (proj2 (status_400_iff_undecodable_or_falsy Samples.env_configured Samples.sdk_ok
                  (MoreSamples.post_of (JStr EmptyString)) None)).
  split; [reflexivity|]. split; [reflexivity|].
  right. exists (JStr EmptyString). split; reflexivity.
Defined.

Lemma status_500_iff_loop_fails_witness :
  (exists response,
     outcome (actualValidateTokenHandler Samples.env_configured Samples.sdk_ok
                (MoreSamples.post_of MoreSamples.batch_that_does_not_render) None) = Returned response
     /\ status response = 500%Z)
  /\ existsb touches_service_bus
       (events (actualValidateTokenHandler Samples.env_configured Samples.sdk_ok
                  (MoreSamples.post_of MoreSamples.batch_that_does_not_render) None)) = false.
Proof.
  destruct (status_500_iff_loop_fails Samples.env_configured Samples.sdk_ok
              (MoreSamples.post_of MoreSamples.batch_that_does_not_render) None) as [Hiff Hquiet].
  split.
  - apply (proj2 Hiff). split; [reflexivity|]. split; [reflexivity|].
    exists MoreSamples.batch_that_does_not_render. repeat split; reflexivity.
  - apply (Hquiet internal_error_response); reflexivity.
Defined.

Lemma status_202_iff_acknowledged_witness :
  exists response,
    outcome (actualValidateTokenHandler Samples.env_unset Samples.sdk_ok
               (MoreSamples.post_of MoreSamples.value_is_object) None) = Returned response
    /\ status response = 202%Z.
Proof.
  apply (proj2 (status_202_iff_acknowledged Samples.env_unset Samples.sdk_ok
                  (MoreSamples.post_of MoreSamples.value_is_object) None)).
  split; [reflexivity|]. split; [reflexivity|].
  exists MoreSamples.value_is_object. repeat split; try reflexivity. left. reflexivity.
Defined.

(** X9. The response does not depend on the publisher: two runs on the same
    request and environment resolve to the same response whatever the
    transport does in each and whichever services are injected. Publishing
    can only change what is logged and sent, never the answer. *)
Theorem response_is_independent_of_the_publisher env request
    (sdk1 sdk2 : ServiceBusSdk) (override1 override2 : option IServiceBusService) :
  outcome (actualValidateTokenHandler env sdk1 request override1) =
  outcome (actualValidateTokenHandler env sdk2 request override2).
Proof.
  pose proof (handler_follows_a_path env sdk1 request override1) as Hpath1.
  pose proof (handler_follows_a_path env sdk2 request override2) as Hpath2.
  remember (actualValidateTokenHandler env sdk1 request override1) as run1.
  remember (actualValidateTokenHandler env sdk2 request override2) as run2.
  destruct Hpath1; destruct Hpath2; path_facts; cbn [outcome snd];
    try reflexivity; congruence.
Qed.

(** X10. Only a POST without a usable token reads the body or reaches the
    publisher: on every other request the run contains no body read, no call
    of [sendMessages] and no transport call. *)
Theorem only_notifications_read_the_body_or_publish env sdk request override :
  method request <> "POST" \/ ~ no_validation_token request ->
  existsb reads_body (events (actualValidateTokenHandler env sdk request override)) = false
  /\ existsb touches_service_bus
       (events (actualValidateTokenHandler env sdk request override)) = false.
Proof.
  intros Hother.
  on_paths env sdk request override; try (split; reflexivity);
    destruct Hother as [Hmethod | Htoken]; exfalso; tauto.
Qed.

Lemma only_notifications_read_the_body_or_publish_witness :
  existsb reads_body
    (events (actualValidateTokenHandler Samples.env_configured Samples.sdk_ok
               MoreSamples.get_without_token (Some Samples.failing_stub))) = false
  /\ existsb touches_service_bus
       (events (actualValidateTokenHandler Samples.env_configured Samples.sdk_ok
                  MoreSamples.get_without_token (Some Samples.failing_stub))) = false.
Proof.
  apply (only_notifications_read_the_body_or_publish Samples.env_configured Samples.sdk_ok
           MoreSamples.get_without_token (Some Samples.failing_stub)).
  left. discriminate.
Defined.

(** X11. Of the query the handler uses only whether [validationtoken] has a
    non-empty value, and which: two requests that agree on URL, method and
    body accessors, and on that, run identically. Other parameters are
    ignored, and an empty token is the same as none. *)
Theorem only_the_token_matters env sdk override (request1 request2 : HttpRequest) :
  url request2 = url request1 ->
  method request2 = method request1 ->
  json request2 = json request1 ->
  text request2 = text request1 ->
  truthy_string (query_get (query request2) "validationtoken") =
    truthy_string (query_get (query request1) "validationtoken") ->
  actualValidateTokenHandler env sdk request2 override =
    actualValidateTokenHandler env sdk request1 override.
Proof.
  intros Hurl Hmethod Hjson Htext Htoken.
  unfold actualValidateTokenHandler, intake, request_json, request_text.
  now rewrite Hurl, Hmethod, Hjson, Htext, Htoken.
Qed.

Lemma only_the_token_matters_witness :
  actualValidateTokenHandler Samples.env_configured Samples.sdk_ok
    MoreSamples.post_with_empty_token None =
  actualValidateTokenHandler Samples.env_configured Samples.sdk_ok
    {| url := Samples.endpoint; method := "POST"; query := [];
       json := Returned Samples.batch_payload; text := Returned "{...}" |} None.
Proof.
  apply (only_the_token_matters Samples.env_configured Samples.sdk_ok None
           {| url := Samples.endpoint; method := "POST"; query := [];
              json := Returned Samples.batch_payload; text := Returned "{...}" |}
           MoreSamples.post_with_empty_token); reflexivity.
Defined.

(** X12. An injected service replaces the publisher altogether: with a
    service passed in that itself only logs, the run never creates a client
    or a sender and never calls the SDK, whatever the environment holds; all
    that touches the Service Bus is at most the one call of the injected
    [sendMessages]. *)
Theorem injected_service_replaces_the_publisher env sdk request
    (injected : IServiceBusService) :
  (forall messages, forallb is_log (events (sendMessages injected messages)) = true) ->
  filter touches_service_bus
    (events (actualValidateTokenHandler env sdk request (Some injected))) = []
  \/ exists messages,
       filter touches_service_bus
         (events (actualValidateTokenHandler env sdk request (Some injected))) =
       [PublishInvoked messages].
Proof.
  intros Hstub.
  on_paths env sdk request (Some injected);
    unfold events, intake_prefix; cbn [fst app filter touches_service_bus];
    try (left; reflexivity);
    try (left; destruct (text request); reflexivity);
    rewrite ?filter_app;
    match goal with
    | H : forallb is_log ?l = true |- _ =>
        destruct (only_logs_untouched l H) as (_ & _ & Hquiet & _)
    end;
    rewrite Hquiet; cbn [app filter touches_service_bus service_in_use];
    try (left; reflexivity).
  right. eexists.
  match goal with
  | |- context [fst (sendMessages injected ?m)] =>
      destruct (only_logs_untouched _ (Hstub m)) as (_ & _ & Hstub' & _);
      unfold events in Hstub'; rewrite Hstub'
  end.
  reflexivity.
Qed.

Lemma injected_service_replaces_the_publisher_witness :
  filter touches_service_bus
    (events (actualValidateTokenHandler Samples.env_configured Samples.sdk_send_fails
               Samples.post_batch (Some Samples.failing_stub))) = []
  \/ exists messages,
       filter touches_service_bus
         (events (actualValidateTokenHandler Samples.env_configured Samples.sdk_send_fails
                    Samples.post_batch (Some Samples.failing_stub))) =
       [PublishInvoked messages].
Proof.
  apply (injected_service_replaces_the_publisher Samples.env_configured
           Samples.sdk_send_fails Samples.post_batch Samples.failing_stub).
  intros messages. reflexivity.
Defined.

(** ** What is sent, and how often *)

Lemma sendMessages_sends_at_most_once sdk this messages :
  (length (filter is_send
             (events (AzureServiceBusService.sendMessages_impl sdk this messages))) <= 1)%nat.
Proof. publisher_unfold. sdk_cases sdk this messages; cbn; lia. Qed.

(** Unifies the decoded bodies, element lists and coordinates that different
    hypotheses name differently. *)
Ltac same_inputs :=
  repeat match goal with
  | H1 : json ?r = Returned ?a, H2 : json ?r = Returned ?b |- _ =>
      tryif constr_eq a b then fail
      else (assert (b = a) by congruence; subst b)
  | H1 : elements ?v = Some ?a, H2 : elements ?v = Some ?b |- _ =>
      tryif constr_eq a b then fail
      else (assert (b = a) by congruence; subst b)
  | H1 : truthy_string ?v = Some ?a, H2 : truthy_string ?v = Some ?b |- _ =>
      tryif constr_eq a b then fail
      else (assert (b = a) by congruence; subst b)
  end.

(** X13. The registered handler, on a non-empty array the loop gets past,
    reaches the transport in one fixed way: it calls the publisher once with
    one message per element, and the publisher calls [new ServiceBusClient]
    on [SERVICE_BUS_CONNECTION_STRING], then, each only if the call before
    it returned, [createSender] on [SERVICE_BUS_QUEUE_NAME], one send of
    those very messages and [sender.close()], and [sbClient.close()] unless
    closing the sender failed. Nothing else touches the Service Bus. *)
Theorem registered_handler_publishes_to_the_configured_queue
    env sdk request payload notifications cs q :
  method request = "POST" ->
  no_validation_token request ->
  json request = Returned payload ->
  value_member payload = Some (JArr notifications) ->
  (0 < length notifications)%nat ->
  forallb loggable notifications = true ->
  SERVICE_BUS_CONNECTION_STRING env = Some cs -> nonempty cs = true ->
  SERVICE_BUS_QUEUE_NAME env = Some q -> nonempty q = true ->
  filter touches_service_bus (events (validateTokenHandler env sdk request)) =
    PublishInvoked (map to_message notifications)
    :: ClientCreated cs
    :: match new_client_result sdk cs with
       | Thrown _ => []
       | Returned _ =>
           SenderCreated q
           :: match create_sender_result sdk q with
              | Thrown _ => []
              | Returned _ =>
                  SenderSend (map to_message notifications)
                  :: SenderClose
                  :: match sender_close_result sdk with
                     | Returned _ => [ClientClose]
                     | Thrown _ => []
                     end
              end
       end.
Proof.
  intros Hm Htoken Hjson Hvalue Hlen Hloggable Hcs Hcs' Hq Hq'.
  destruct (configured_coordinates env cs q Hcs Hcs' Hq Hq') as [Tcs Tq].
  assert (Hel : elements (value_member payload) = Some notifications)
    by now rewrite Hvalue.
  assert (Htruthy : js_truthy payload = true)
    by (destruct payload; try discriminate; reflexivity).
  destruct (forward_on_batch env sdk None payload notifications cs q
              Htruthy Hel Hloggable Tcs Tq) as (log & Hlog & Hforward).
  unfold validateTokenHandler.
  rewrite (handler_when_forward_returns _ _ _ _ _ _ Hm Htoken Hjson Htruthy Hforward).
  destruct notifications as [|n rest]; [simpl in Hlen; lia|].
  unfold events. cbn [fst filter touches_service_bus]. rewrite filter_app.
  destruct (only_logs_untouched log Hlog) as (_ & _ & Hquiet & _). rewrite Hquiet.
  cbn [app filter touches_service_bus service_in_use sendMessages
       AzureServiceBusService.as_service].
  f_equal. publisher_unfold.
  cbn [AzureServiceBusService.connectionString AzureServiceBusService.queueName].
  destruct (new_client_result sdk cs) as [[]|clientError];
    destruct (create_sender_result sdk q) as [[]|senderError];
    destruct (send_result sdk (map to_message (n :: rest))) as [[]|sbError];
    destruct (sender_close_result sdk) as [[]|e1];
    destruct (client_close_result sdk) as [[]|e2]; reflexivity.
Qed.

Lemma registered_handler_publishes_to_the_configured_queue_witness :
  filter touches_service_bus
    (events (validateTokenHandler Samples.env_configured Samples.sdk_send_and_close_fail
               (MoreSamples.post_of
                  (JObj [("value", JArr [Samples.notification_added; JBool true])])))) =
  [PublishInvoked [to_message Samples.notification_added; to_message (JBool true)];
   ClientCreated Samples.connection_string;
   SenderCreated "notifications";
   SenderSend [to_message Samples.notification_added; to_message (JBool true)];
   SenderClose].
Proof.
  apply (registered_handler_publishes_to_the_configured_queue
           Samples.env_configured Samples.sdk_send_and_close_fail
           (MoreSamples.post_of
              (JObj [("value", JArr [Samples.notification_added; JBool true])]))
           (JObj [("value", JArr [Samples.notification_added; JBool true])])
           [Samples.notification_added; JBool true]
           Samples.connection_string "notifications");
    try reflexivity.
  simpl. lia.
Defined.

(** X14. No request makes the registered handler send twice: whatever the
    request, the environment and the transport's behaviour, the run contains
    at most one [sender.sendMessages] call. There is no retry. *)
Theorem registered_handler_sends_at_most_once env sdk request :
  (length (filter is_send (events (validateTokenHandler env sdk request))) <= 1)%nat.
Proof.
  unfold validateTokenHandler.
  on_paths env sdk request (@None IServiceBusService);
    unfold events, intake_prefix; cbn [fst app filter is_send];
    try (destruct (text request); cbn; lia);
    try (cbn; lia);
    rewrite ?filter_app;
    match goal with
    | H : forallb is_log ?l = true |- _ =>
        destruct (only_logs_untouched l H) as (_ & _ & _ & Hquiet)
    end;
    rewrite Hquiet; cbn [app filter is_send length service_in_use sendMessages
                         AzureServiceBusService.as_service];
    try match goal with
        | |- context [fst (AzureServiceBusService.sendMessages_impl ?s ?t ?m)] =>
            let Hs := fresh "Hs" in
            pose proof (sendMessages_sends_at_most_once s t m) as Hs;
            unfold events in Hs; exact Hs
        end;
    cbn; lia.
Qed.

(** X15. The loop checks nothing of an element but what logging it needs.
    It only logs. If every element is one it gets past (not [null], and the
    logged members convert to strings) it returns the messages it was given
    followed by one message per element, in order, whatever kind of value
    the elements are; otherwise it throws the [TypeError] of reading a
    member of [null] or that of a failed conversion, and returns no
    message. *)
Theorem loop_forwards_every_element_it_can_log (notifications : list JValue)
    (messagesToSend : list ServiceBusMessage) :
  forallb is_log (events (build_messages notifications messagesToSend)) = true
  /\ (if forallb loggable notifications
      then outcome (build_messages notifications messagesToSend) =
             Returned (messagesToSend ++ map to_message notifications)
      else outcome (build_messages notifications messagesToSend) =
             Thrown null_member_error
           \/ outcome (build_messages notifications messagesToSend) =
                Thrown conversion_error).
Proof.
  destruct (build_messages_general notifications messagesToSend) as (log & Hlog & Hrun).
  destruct (forallb loggable notifications).
  - rewrite Hrun. now split.
  - destruct Hrun as (e & [-> | ->] & Hrun); rewrite Hrun; split; auto.
Qed.

(** X16. In a batch of notification objects that the loop gets past, the
    missing-[changeType] warning is written for exactly the notifications
    whose [changeType] is absent or falsy (an empty string counts as
    missing). *)
Theorem missing_changeType_is_warned_about (notifications : list JValue) :
  forallb is_object notifications = true ->
  forallb loggable notifications = true ->
  forall messagesToSend notification,
    In (Logged LogWarn (MsgChangeTypeMissing notification))
       (events (build_messages notifications messagesToSend))
    <-> (In notification notifications
         /\ js_truthy_opt (changeType_of notification) = false).
Proof.
  induction notifications as [|n rest IH]; intros Hobj Hloggable acc notification.
  - simpl. tauto.
  - simpl in Hobj. apply andb_true_iff in Hobj as [Hn Hrest].
    cbn [forallb] in Hloggable. apply andb_true_iff in Hloggable as [Ln Lrest].
    destruct n as [| | | | |fields]; try discriminate.
    rewrite (build_messages_step (JObj fields) rest acc Ln).
    specialize (IH Hrest Lrest (acc ++ [to_message (JObj fields)]) notification).
    destruct (build_messages rest (acc ++ [to_message (JObj fields)])) as [t r].
    unfold events in *. cbn [fst member_of] in *. cbn [In]. split.
    + intros [H | [H | H]].
      * discriminate.
      * destruct (js_truthy_opt (lookup_field fields "changeType")) eqn:E;
          [discriminate|].
        injection H as <-. split; [now left | exact E].
      * apply IH in H as [H1 H2]. split; [now right | exact H2].
    + intros [[<- | H] Hfalsy].
      * right. left. cbn [changeType_of] in Hfalsy. now rewrite Hfalsy.
      * right. right. apply IH. now split.
Qed.

Lemma missing_changeType_is_warned_about_witness :
  In (Logged LogWarn
        (MsgChangeTypeMissing MoreSamples.notification_with_empty_changeType))
     (events (build_messages
                [Samples.notification_added;
                 MoreSamples.notification_with_empty_changeType] []))
  /\ ~ In (Logged LogWarn (MsgChangeTypeMissing Samples.notification_added))
         (events (build_messages
                    [Samples.notification_added;
                     MoreSamples.notification_with_empty_changeType] [])).
Proof.
  pose proof (missing_changeType_is_warned_about
                [Samples.notification_added;
                 MoreSamples.notification_with_empty_changeType] eq_refl eq_refl []) as H.
  split.
  - apply (proj2 (H MoreSamples.notification_with_empty_changeType)).
    split; [right; left; reflexivity | reflexivity].
  - intros Hin. apply (proj1 (H Samples.notification_added)) in Hin as [_ Hfalsy].
    discriminate Hfalsy.
Defined.

(** ** The liveness probe *)

(** X17. The probe never greets an empty name. Whenever it answers, the body
    is the greeting of a non-empty name: the [name] of the query if that is
    non-empty, else the body text if that is non-empty, else [world]. *)
Theorem probe_greets_a_nonempty_name (request : HttpRequest)
    (response : Probe.ProbeResponse) :
  snd (Probe.httpTriggerWebhook request) = Returned response ->
  exists name,
    nonempty name = true
    /\ Probe.probe_body response = ("Hello, " ++ name ++ "!")%string
    /\ (query_get (query request) "name" = Some name
        \/ (truthy_string (query_get (query request) "name") = None
            /\ (text request = Returned name
                \/ (text request = Returned EmptyString /\ name = "world")))).
Proof.
  unfold Probe.httpTriggerWebhook.
  destruct (truthy_string (query_get (query request) "name")) as [name|] eqn:Ename.
  - intros [= <-]. destruct (truthy_string_Some _ _ Ename) as [Hq Hne].
    exists name. repeat split; [exact Hne | now left].
  - destruct (text request) as [bodyText|e]; [|discriminate].
    intros [= <-]. destruct bodyText as [|c rest].
    + exists "world". repeat split. right. split; [reflexivity|]. right. now split.
    + exists (String c rest). repeat split. right. split; [reflexivity|]. now left.
Qed.

Lemma probe_greets_a_nonempty_name_witness :
  exists name,
    nonempty name = true
    /\ Probe.probe_body {| Probe.probe_body := "Hello, Grace!" |} = ("Hello, " ++ name ++ "!")%string
    /\ (query_get (query MoreSamples.probe_with_body) "name" = Some name
        \/ (truthy_string (query_get (query MoreSamples.probe_with_body) "name") = None
            /\ (text MoreSamples.probe_with_body = Returned name
                \/ (text MoreSamples.probe_with_body = Returned EmptyString
                    /\ name = "world")))).
Proof.
  apply (probe_greets_a_nonempty_name MoreSamples.probe_with_body
           {| Probe.probe_body := "Hello, Grace!" |}).
  reflexivity.
Defined.

(** X18. The probe reads the body exactly when the query gives no usable
    name, and it rejects exactly when, in addition, reading the body
    rejects: nothing catches that error, which is the one the caller gets.
    With a name in the query an unreadable body does no harm. *)
Theorem probe_rejects_iff_unnamed_and_unreadable (request : HttpRequest) :
  (In Probe.ProbeBodyReadText (fst (Probe.httpTriggerWebhook request))
   <-> truthy_string (query_get (query request) "name") = None)
  /\ (forall e,
        snd (Probe.httpTriggerWebhook request) = Thrown e
        <-> (truthy_string (query_get (query request) "name") = None
             /\ text request = Thrown e)).
Proof.
  unfold Probe.httpTriggerWebhook.
  destruct (truthy_string (query_get (query request) "name")) as [name|] eqn:Ename.
  - split.
    + cbn. split; [intros [H | []]; discriminate | discriminate].
    + intros e. cbn. split; [discriminate | intros [H _]; discriminate].
  - destruct (text request) as [bodyText|e']; cbn; split;
      try (split; [reflexivity | tauto]);
      intros e; (split; [ intros H; try discriminate; split; congruence
                        | intros [_ H]; congruence ]).
Qed.

Lemma probe_rejects_iff_unnamed_and_unreadable_witness :
  snd (Probe.httpTriggerWebhook MoreSamples.probe_unreadable) =
    Thrown (ErrorObject "Body is unusable")
  /\ ~ In Probe.ProbeBodyReadText (fst (Probe.httpTriggerWebhook MoreSamples.probe_named)).
Proof.
  split.
  - apply (proj2 (proj2 (probe_rejects_iff_unnamed_and_unreadable
                           MoreSamples.probe_unreadable) _)).
    split; reflexivity.
  - intros Hin.
    apply (proj1 (proj1 (probe_rejects_iff_unnamed_and_unreadable
                           MoreSamples.probe_named))) in Hin.
    discriminate Hin.
Defined.
